(** * Authentication backend of the Kwantum Institute site

    A shallow embedding of [backend/authentication] (models.py,
    serializers.py, views.py, signals.py) and the properties of the
    password-reset token lifecycle, the login audit and the credential
    checks.

    The relational store is a record of tables, each table a list of rows in
    insertion order.  Views are computations in a state-and-exception monad:
    a Python exception that no handler catches leaves the view with the
    store as the statements before it left it (no view opens a transaction,
    every [save()], [create()] and [delete()] is committed on its own). *)

From Stdlib Require Import String Ascii List ZArith Bool Arith Lia.
From Stdlib Require Import DecimalString.
Import ListNotations.

Local Open Scope string_scope.
Local Open Scope list_scope.

(** ** Python exceptions *)

Inductive exn : Type :=
| AttributeError (name : string)
| DoesNotExist
| MultipleObjectsReturned
| IntegrityError
| NotAuthenticated
| ValidationError (msg : string).

(** ** Time

    A [datetime] is a number of microseconds, the resolution of Python's
    [datetime]; [timedelta_hours] is [timezone.timedelta(hours=h)]. *)

Definition datetime := Z.
Definition one_second : Z := 1000000.
Definition timedelta_hours (h : Z) : Z := h * 3600 * one_second.

(** ** models.py and the framework's tables *)

Module User.
(** [django.contrib.auth.models.User]: [password] holds the hash. *)
Record t := mk {
    id : nat;
    username : string;
    email : string;
    password : string;
    is_active : bool }.

Definition with_password (u : t) (h : string) : t :=
    {| id := id u; username := username u; email := email u;
       password := h; is_active := is_active u |}.
End User.

Module UserProfile.
(** Only the owner is kept: no property below reads the descriptive columns. *)
Record t := mk { user : nat }.
End UserProfile.

Module LoginAttempt.
Record t := mk {
    username : string;
    ip_address : string;
    user_agent : string;
    success : bool;
    timestamp : datetime }.
End LoginAttempt.

Module PasswordResetToken.
Record t := mk {
    user : nat;
    token : string;
    is_used : bool;
    expires_at : datetime;
    created_at : datetime }.

(** [is_expired]: [timezone.now() > self.expires_at]. *)
Definition is_expired (now : datetime) (r : t) : bool :=
    (expires_at r <? now)%Z.

(** [is_valid]: [not self.is_used and not self.is_expired]. *)
Definition is_valid (now : datetime) (r : t) : bool :=
    negb (is_used r) && negb (is_expired now r).

Definition mark_used (r : t) : t :=
    {| user := user r; token := token r; is_used := true;
       expires_at := expires_at r; created_at := created_at r |}.
End PasswordResetToken.

Module Token.
(** [rest_framework.authtoken.models.Token]: [key] is the primary key and
    [user] a one-to-one reference. *)
Record t := mk { key : string; user : nat }.
End Token.

Record Mail := mkMail { recipient : string; body : string }.

Record State := mkState {
  users : list User.t;
  profiles : list UserProfile.t;
  login_attempts : list LoginAttempt.t;
  password_reset_tokens : list PasswordResetToken.t;
  auth_tokens : list Token.t;
  sessions : list nat;
  outbox : list Mail;
  log : list string }.

Definition set_users (l : list User.t) (s : State) : State :=
  mkState l (profiles s) (login_attempts s) (password_reset_tokens s)
          (auth_tokens s) (sessions s) (outbox s) (log s).
Definition set_profiles (l : list UserProfile.t) (s : State) : State :=
  mkState (users s) l (login_attempts s) (password_reset_tokens s)
          (auth_tokens s) (sessions s) (outbox s) (log s).
Definition set_login_attempts (l : list LoginAttempt.t) (s : State) : State :=
  mkState (users s) (profiles s) l (password_reset_tokens s)
          (auth_tokens s) (sessions s) (outbox s) (log s).
Definition set_password_reset_tokens (l : list PasswordResetToken.t) (s : State) : State :=
  mkState (users s) (profiles s) (login_attempts s) l
          (auth_tokens s) (sessions s) (outbox s) (log s).
Definition set_auth_tokens (l : list Token.t) (s : State) : State :=
  mkState (users s) (profiles s) (login_attempts s) (password_reset_tokens s)
          l (sessions s) (outbox s) (log s).
Definition set_sessions (l : list nat) (s : State) : State :=
  mkState (users s) (profiles s) (login_attempts s) (password_reset_tokens s)
          (auth_tokens s) l (outbox s) (log s).
Definition set_outbox (l : list Mail) (s : State) : State :=
  mkState (users s) (profiles s) (login_attempts s) (password_reset_tokens s)
          (auth_tokens s) (sessions s) l (log s).
Definition set_log (l : list string) (s : State) : State :=
  mkState (users s) (profiles s) (login_attempts s) (password_reset_tokens s)
          (auth_tokens s) (sessions s) (outbox s) l.

(** ** The ORM manager on a table *)

Section Manager.
Context {A : Type}.

(** [objects.get(...)]: the single matching row, [DoesNotExist] when there
    is none, [MultipleObjectsReturned] when there are several. *)
Definition objects_get (p : A -> bool) (table : list A) : exn + A :=
    match filter p table with
    | [] => inl DoesNotExist
    | [r] => inr r
    | _ :: _ :: _ => inl MultipleObjectsReturned
    end.

(** [objects.filter(...).exists()]. *)
Definition objects_exists (p : A -> bool) (table : list A) : bool :=
    existsb p table.

(** [objects.filter(...).delete()]. *)
Definition objects_delete (p : A -> bool) (table : list A) : list A :=
    filter (fun r => negb (p r)) table.

(** [instance.save()] of a row loaded from the table: the row with the
    same key is replaced. *)
Definition objects_update (same : A -> bool) (r : A) (table : list A) : list A :=
    map (fun x => if same x then r else x) table.
End Manager.

(** ** The state-and-exception monad of the views *)

Definition M (A : Type) : Type := State -> State * (exn + A).

Definition ret {A} (a : A) : M A := fun s => (s, inr a).
Definition raise {A} (e : exn) : M A := fun s => (s, inl e).
Definition bind {A B} (m : M A) (k : A -> M B) : M B :=
  fun s => match m s with
           | (s', inr a) => k a s'
           | (s', inl e) => (s', inl e)
           end.
Definition get_state : M State := fun s => (s, inr s).
Definition modify (f : State -> State) : M unit := fun s => (f s, inr tt).
Definition lift {A} (r : exn + A) : M A := fun s => (s, r).

(** [try: body except Exception as e: handler(e)]. *)
Definition try_except {A} (body : M A) (handler : exn -> M A) : M A :=
  fun s => match body s with
           | (s', inr a) => (s', inr a)
           | (s', inl e) => handler e s'
           end.

Declare Scope monad_scope.
Delimit Scope monad_scope with monad.
Notation "x <- m ;; k" := (bind m (fun x => k))
  (at level 61, m at next level, right associativity) : monad_scope.
Notation "m ;;; k" := (bind m (fun _ => k))
  (at level 61, right associativity) : monad_scope.
Local Open Scope monad_scope.

Definition logger_error (msg : string) : M unit :=
  modify (fun s => set_log (log s ++ [msg]) s).

(** ** Collaborators outside the application

    Password hashing ([make_password], [check_password] of
    [django.contrib.auth.hashers]) and the format check of DRF's
    [EmailField] are taken as an interface. *)

Class Collaborators := {
  make_password : string -> string;
  check_password : string -> string -> bool;
  email_format_ok : string -> bool }.

(** The authentication backends Django ships.  [ModelBackend], the default
    of [AUTHENTICATION_BACKENDS], refuses users whose [is_active] is false
    ([user_can_authenticate]); [AllowAllUsersModelBackend] lets them
    through. *)

Inductive AuthBackend := ModelBackend | AllowAllUsersModelBackend.

Record Settings := mkSettings {
  AUTHENTICATION_BACKENDS : AuthBackend;
  FRONTEND_URL : string }.

Definition global_settings : Settings :=
  {| AUTHENTICATION_BACKENDS := ModelBackend;
     FRONTEND_URL := "http://localhost:3000" |}.

(** ** Requests and responses *)

Fixpoint dict_get (k : string) (d : list (string * string)) : option string :=
  match d with
  | [] => None
  | (k', v) :: d' => if k' =? k then Some v else dict_get k d'
  end.

Module Request.
(** [data] and [META] are the request's dictionaries, [user] is
    [request.user] when the request is authenticated.  The readings of the
    outside world during the request are part of it: [now] is
    [timezone.now()], [entropy i] the [i]-th draw of the system's random
    source, [token_key] the key [Token.generate_key()] produces, and
    [mail_ok] tells whether the mail backend accepts a message. *)
Record t := mk {
  data : list (string * string);
  META : list (string * string);
  user : option User.t;
  now : datetime;
  entropy : nat -> nat;
  token_key : string;
  mail_ok : bool }.
End Request.

Module Response.
Record t := mk {
  status : nat;
  success : bool;
  message : string;
  errors : list (string * string);
  user : option nat;
  token : option string }.
End Response.

Definition HTTP_200_OK : nat := 200.
Definition HTTP_400_BAD_REQUEST : nat := 400.

(** ** Serializer fields *)

Inductive validation (A : Type) : Type :=
| Valid (a : A)
| Invalid (errors : list (string * string)).
Arguments Valid {A} a.
Arguments Invalid {A} errors.

Definition nat_to_string (n : nat) : string :=
  NilEmpty.string_of_uint (Nat.to_uint n).

(** [serializers.CharField(max_length=n)] on a submitted value (taken after
    the field's whitespace trimming): required, not blank, at most [n]
    characters. *)
Definition CharField (max_length : nat) (raw : option string) : string + string :=
  match raw with
  | None => inl "This field is required."
  | Some v =>
      if v =? "" then inl "This field may not be blank."
      else if (max_length <? String.length v)%nat
      then inl ("Ensure this field has no more than "
                  ++ nat_to_string max_length ++ " characters.")%string
      else inr v
  end.

(** [serializers.EmailField()]. *)
Definition EmailField `{Collaborators} (raw : option string) : string + string :=
  match raw with
  | None => inl "This field is required."
  | Some v =>
      if v =? "" then inl "This field may not be blank."
      else if email_format_ok v then inr v
      else inl "Enter a valid email address."
  end.

(** A [validate_<field>] method run after the field's own checks; only
    [ValidationError] is turned into a field error. *)
Definition run_validate_field (r : string + string) (validate : string -> exn + string)
  : exn + (string + string) :=
  match r with
  | inl m => inr (inl m)
  | inr v =>
      match validate v with
      | inr v' => inr (inr v')
      | inl (ValidationError m) => inr (inl m)
      | inl e => inl e
      end
  end.

Definition field_errors (name : string) (r : string + string) : list (string * string) :=
  match r with
  | inl m => [(name, m)]
  | inr _ => []
  end.

(** The object-level [validate]: its [ValidationError] becomes a non-field
    error. *)
Definition run_validate {A} (r : exn + A) : exn + validation A :=
  match r with
  | inr a => inr (Valid a)
  | inl (ValidationError m) => inr (Invalid [("non_field_errors", m)])
  | inl e => inl e
  end.

(** Python truthiness of a string that may be [None]. *)
Definition truthy (o : option string) : bool :=
  match o with
  | Some v => negb (v =? "")
  | None => false
  end.

(** ** signals.py *)

Definition by_profile_user (uid : nat) (p : UserProfile.t) : bool :=
  (UserProfile.user p =? uid)%nat.

(** [UserProfile.objects.create(user=instance)]; the one-to-one column is
    unique. *)
Definition UserProfile_create (uid : nat) : M unit :=
  s <- get_state ;;
  if objects_exists (by_profile_user uid) (profiles s)
  then raise IntegrityError
  else modify (set_profiles (profiles s ++ [UserProfile.mk uid])).

Definition create_user_profile (instance : User.t) (created : bool) : M unit :=
  if created
  then try_except (UserProfile_create (User.id instance))
         (fun _ => logger_error "Failed to create profile for user")
  else ret tt.

Definition save_user_profile (instance : User.t) : M unit :=
  s <- get_state ;;
  match objects_get (by_profile_user (User.id instance)) (profiles s) with
  | inr _ => ret tt
  | inl DoesNotExist =>
      try_except (UserProfile_create (User.id instance))
        (fun _ => logger_error "Failed to create missing profile for user")
  | inl _ => logger_error "Failed to save profile for user"
  end.

Definition post_save_User (instance : User.t) (created : bool) : M unit :=
  create_user_profile instance created ;;;
  save_user_profile instance.

Definition by_id (uid : nat) (u : User.t) : bool := (User.id u =? uid)%nat.

(** [user.save()] of a user loaded from the table, followed by the
    [post_save] receivers. *)
Definition User_save (instance : User.t) : M unit :=
  modify (fun s => set_users
            (objects_update (by_id (User.id instance)) instance (users s)) s) ;;;
  post_save_User instance false.

(** ** serializers.py *)

Definition by_username (name : string) (u : User.t) : bool := User.username u =? name.
Definition by_email (e : string) (u : User.t) : bool := User.email u =? e.

Definition user_can_authenticate (backend : AuthBackend) (u : User.t) : bool :=
  match backend with
  | ModelBackend => User.is_active u
  | AllowAllUsersModelBackend => true
  end.

(** [django.contrib.auth.authenticate(username=..., password=...)] with the
    configured backend: the user of that name when the password checks and
    the backend lets the user authenticate, [None] otherwise. *)
Definition authenticate `{Collaborators} (cfg : Settings) (s : State)
    (username password : string) : exn + option User.t :=
  match objects_get (by_username username) (users s) with
  | inr u =>
      if check_password password (User.password u)
         && user_can_authenticate (AUTHENTICATION_BACKENDS cfg) u
      then inr (Some u) else inr None
  | inl DoesNotExist => inr None
  | inl e => inl e
  end.

Definition msg_invalid_credentials : string := "Invalid username or password.".
Definition msg_account_disabled : string := "User account is disabled.".
Definition msg_must_include : string := "Must include 'username' and 'password'.".

(** [LoginSerializer.validate]; [attrs] holds [attrs.get('username')] and
    [attrs.get('password')], the result is [attrs['user']]. *)
Definition LoginSerializer_validate `{Collaborators} (cfg : Settings) (s : State)
    (attrs : option string * option string) : exn + User.t :=
  let (username, password) := attrs in
  if truthy username && truthy password then
    match username, password with
    | Some u, Some p =>
        match authenticate cfg s u p with
        | inl e => inl e
        | inr None => inl (ValidationError msg_invalid_credentials)
        | inr (Some user) =>
            if negb (User.is_active user)
            then inl (ValidationError msg_account_disabled)
            else inr user
        end
    | _, _ => inl (ValidationError msg_must_include)
    end
  else inl (ValidationError msg_must_include).

Definition LoginSerializer_is_valid `{Collaborators} (cfg : Settings) (s : State)
    (data : list (string * string)) : exn + validation User.t :=
  let f_username := CharField 150 (dict_get "username" data) in
  let f_password := CharField 128 (dict_get "password" data) in
  match f_username, f_password with
  | inr u, inr p => run_validate (LoginSerializer_validate cfg s (Some u, Some p))
  | _, _ => inr (Invalid (field_errors "username" f_username
                            ++ field_errors "password" f_password))
  end.

(** [PasswordChangeSerializer]. *)
Definition PasswordChangeSerializer_validate (attrs : string * string) : exn + string :=
  let (new_password, new_password_confirm) := attrs in
  if negb (new_password =? new_password_confirm)
  then inl (ValidationError "New passwords do not match.")
  else inr new_password.

Definition PasswordChangeSerializer_validate_old_password `{Collaborators}
    (user : User.t) (value : string) : exn + string :=
  if negb (check_password value (User.password user))
  then inl (ValidationError "Current password is incorrect.")
  else inr value.

Definition PasswordChangeSerializer_is_valid `{Collaborators} (user : User.t)
    (data : list (string * string)) : exn + validation string :=
  match run_validate_field (CharField 128 (dict_get "old_password" data))
          (PasswordChangeSerializer_validate_old_password user) with
  | inl e => inl e
  | inr f_old =>
      let f_new := CharField 128 (dict_get "new_password" data) in
      let f_confirm := CharField 128 (dict_get "new_password_confirm" data) in
      match f_old, f_new, f_confirm with
      | inr _, inr new_password, inr confirm =>
          run_validate (PasswordChangeSerializer_validate (new_password, confirm))
      | _, _, _ => inr (Invalid (field_errors "old_password" f_old
                                   ++ field_errors "new_password" f_new
                                   ++ field_errors "new_password_confirm" f_confirm))
      end
  end.

(** [PasswordResetRequestSerializer]. *)
Definition msg_no_active_user : string := "No active user found with this email address.".

Definition PasswordResetRequestSerializer_validate_email (s : State) (value : string)
  : exn + string :=
  if negb (objects_exists (fun u => by_email value u && User.is_active u) (users s))
  then inl (ValidationError msg_no_active_user)
  else inr value.

Definition PasswordResetRequestSerializer_is_valid `{Collaborators} (s : State)
    (data : list (string * string)) : exn + validation string :=
  match run_validate_field (EmailField (dict_get "email" data))
          (PasswordResetRequestSerializer_validate_email s) with
  | inl e => inl e
  | inr (inr email) => inr (Valid email)
  | inr (inl m) => inr (Invalid [("email", m)])
  end.

(** [PasswordResetConfirmSerializer].  The two messages of [validate_token]
    are the two failures of the token check: [msg_token_not_found] when no
    row carries the string (TokenNotFound), [msg_token_invalid] when the
    row is used or expired (TokenInvalid). *)
Definition msg_token_not_found : string := "Invalid token.".
Definition msg_token_invalid : string := "Token is invalid or has expired.".

Definition by_token (value : string) (r : PasswordResetToken.t) : bool :=
  PasswordResetToken.token r =? value.
Definition by_owner (uid : nat) (r : PasswordResetToken.t) : bool :=
  (PasswordResetToken.user r =? uid)%nat.

Definition PasswordResetConfirmSerializer_validate_token (s : State) (now : datetime)
    (value : string) : exn + string :=
  match objects_get (by_token value) (password_reset_tokens s) with
  | inr token_obj =>
      if negb (PasswordResetToken.is_valid now token_obj)
      then inl (ValidationError msg_token_invalid)
      else inr value
  | inl DoesNotExist => inl (ValidationError msg_token_not_found)
  | inl e => inl e
  end.

Definition PasswordResetConfirmSerializer_validate (attrs : string * string * string)
  : exn + (string * string) :=
  let '(token, new_password, new_password_confirm) := attrs in
  if negb (new_password =? new_password_confirm)
  then inl (ValidationError "Passwords do not match.")
  else inr (token, new_password).

Definition PasswordResetConfirmSerializer_is_valid (s : State) (now : datetime)
    (data : list (string * string)) : exn + validation (string * string) :=
  match run_validate_field (CharField 100 (dict_get "token" data))
          (PasswordResetConfirmSerializer_validate_token s now) with
  | inl e => inl e
  | inr f_token =>
      let f_new := CharField 128 (dict_get "new_password" data) in
      let f_confirm := CharField 128 (dict_get "new_password_confirm" data) in
      match f_token, f_new, f_confirm with
      | inr token, inr new_password, inr confirm =>
          run_validate (PasswordResetConfirmSerializer_validate (token, new_password, confirm))
      | _, _, _ => inr (Invalid (field_errors "token" f_token
                                   ++ field_errors "new_password" f_new
                                   ++ field_errors "new_password_confirm" f_confirm))
      end
  end.

(** ** views.py *)

(** [django.utils.crypto.get_random_string(length)]: [length] draws of
    [secrets.choice] from the default alphabet. *)
Definition RANDOM_STRING_CHARS : string :=
  "abcdefghijklmnopqrstuvwxyzABCDEFGHIJKLMNOPQRSTUVWXYZ0123456789".

Definition secrets_choice (alphabet : list ascii) (draw : nat) : ascii :=
  nth (draw mod List.length alphabet) alphabet "000"%char.

Definition get_random_string (entropy : nat -> nat) (length : nat) : string :=
  string_of_list_ascii
    (map (fun i => secrets_choice (list_ascii_of_string RANDOM_STRING_CHARS) (entropy i))
         (seq 0 length)).

(** [x_forwarded_for.split(',')[0]]. *)
Fixpoint before_comma (s : string) : string :=
  match s with
  | EmptyString => EmptyString
  | String c rest => if Ascii.eqb c ","%char then EmptyString else String c (before_comma rest)
  end.

(** The module-level function [_get_client_ip(request)]. *)
Definition _get_client_ip (request : Request.t) : option string :=
  let x_forwarded_for := dict_get "HTTP_X_FORWARDED_FOR" (Request.META request) in
  if truthy x_forwarded_for
  then option_map before_comma x_forwarded_for
  else dict_get "REMOTE_ADDR" (Request.META request).

(** [LoginAttempt.objects.create(...)]; [ip_address] is not nullable. *)
Definition LoginAttempt_create (username : string) (ip_address : option string)
    (user_agent : string) (success : bool) (now : datetime) : M unit :=
  match ip_address with
  | None => raise IntegrityError
  | Some ip =>
      modify (fun s => set_login_attempts
                (login_attempts s ++ [LoginAttempt.mk username ip user_agent success now]) s)
  end.

(** Attribute lookup on a view instance.  [LoginView_attrs] are the names
    the class body of [LoginView] binds, [APIView_attrs] the names an
    [APIView] instance inherits or receives from [as_view] and [dispatch]. *)
Definition LoginView_attrs : list string :=
  ["permission_classes"; "post"; "_log_login_attempt"].

Definition APIView_attrs : list string :=
  ["renderer_classes"; "parser_classes"; "authentication_classes";
   "throttle_classes"; "permission_classes"; "content_negotiation_class";
   "metadata_class"; "versioning_class"; "settings"; "schema"; "as_view";
   "allowed_methods"; "default_response_headers"; "http_method_not_allowed";
   "permission_denied"; "throttled"; "get_authenticate_header";
   "get_parser_context"; "get_renderer_context";
   "get_exception_handler_context"; "get_view_name"; "get_view_description";
   "get_format_suffix"; "get_renderers"; "get_parsers"; "get_authenticators";
   "get_permissions"; "get_throttles"; "get_content_negotiator";
   "get_exception_handler"; "perform_content_negotiation";
   "perform_authentication"; "check_permissions"; "check_object_permissions";
   "check_throttles"; "determine_version"; "initialize_request"; "initial";
   "finalize_response"; "handle_exception"; "raise_uncaught_exception";
   "dispatch"; "options"; "http_method_names"; "view_is_async"; "setup";
   "request"; "args"; "kwargs"; "headers"; "format_kwarg"; "response"].

Definition getattr (attrs : list string) (name : string) : M unit :=
  if existsb (String.eqb name) attrs then ret tt else raise (AttributeError name).

(** [LoginView._log_login_attempt]: the arguments of [create] are evaluated
    inside the [try], among them the lookup [self._get_client_ip]. *)
Definition LoginView__log_login_attempt (request : Request.t) (username : string)
    (success : bool) : M unit :=
  try_except
    (getattr (LoginView_attrs ++ APIView_attrs) "_get_client_ip" ;;;
     LoginAttempt_create username (_get_client_ip request)
       (match dict_get "HTTP_USER_AGENT" (Request.META request) with
        | Some ua => ua
        | None => ""
        end)
       success (Request.now request))
    (fun _ => logger_error "Failed to log login attempt").

(** [django.contrib.auth.login]: the session is bound to the user, and the
    [user_logged_in] receiver saves the user's [last_login], which runs the
    [post_save] receivers. *)
Definition login (user : User.t) : M unit :=
  modify (fun s => set_sessions (sessions s ++ [User.id user]) s) ;;;
  post_save_User user false.

Definition by_token_user (uid : nat) (r : Token.t) : bool := (Token.user r =? uid)%nat.
Definition by_key (k : string) (r : Token.t) : bool := Token.key r =? k.

(** [Token.objects.get_or_create(user=user)]: the key of a new row is
    generated on save; key and user are unique columns. *)
Definition Token_get_or_create (request : Request.t) (user : User.t) : M (Token.t * bool) :=
  s <- get_state ;;
  match objects_get (by_token_user (User.id user)) (auth_tokens s) with
  | inr t => ret (t, false)
  | inl DoesNotExist =>
      let t := Token.mk (Request.token_key request) (User.id user) in
      if objects_exists (by_key (Token.key t)) (auth_tokens s)
      then raise IntegrityError
      else modify (set_auth_tokens (auth_tokens s ++ [t])) ;;; ret (t, true)
  | inl e => raise e
  end.

Definition LoginView_post `{Collaborators} (cfg : Settings) (request : Request.t)
  : M Response.t :=
  s <- get_state ;;
  v <- lift (LoginSerializer_is_valid cfg s (Request.data request)) ;;
  match v with
  | Valid user =>
      login user ;;;
      tc <- Token_get_or_create request user ;;
      LoginView__log_login_attempt request (User.username user) true ;;;
      s' <- get_state ;;
      match objects_get (by_profile_user (User.id user)) (profiles s') with
      | inr _ => ret tt
      | inl DoesNotExist => UserProfile_create (User.id user)
      | inl e => raise e
      end ;;;
      ret (Response.mk HTTP_200_OK true "Login successful" []
             (Some (User.id user)) (Some (Token.key (fst tc))))
  | Invalid errors =>
      let username := match dict_get "username" (Request.data request) with
                      | Some u => u
                      | None => "unknown"
                      end in
      LoginView__log_login_attempt request username false ;;;
      ret (Response.mk HTTP_400_BAD_REQUEST false "Login failed" errors None None)
  end.

Definition PasswordChangeView_post `{Collaborators} (request : Request.t) : M Response.t :=
  match Request.user request with
  | None => raise NotAuthenticated
  | Some user =>
      v <- lift (PasswordChangeSerializer_is_valid user (Request.data request)) ;;
      match v with
      | Valid new_password =>
          User_save (User.with_password user (make_password new_password)) ;;;
          modify (fun s => set_auth_tokens
                    (objects_delete (by_token_user (User.id user)) (auth_tokens s)) s) ;;;
          tc <- Token_get_or_create request user ;;
          ret (Response.mk HTTP_200_OK true "Password changed successfully" []
                 None (Some (Token.key (fst tc))))
      | Invalid errors =>
          ret (Response.mk HTTP_400_BAD_REQUEST false "Password change failed" errors
                 None None)
      end
  end.

(** [PasswordResetToken.objects.create(...)]; [token] is a unique column. *)
Definition PasswordResetToken_create (uid : nat) (token : string)
    (expires_at now : datetime) : M unit :=
  s <- get_state ;;
  if objects_exists (by_token token) (password_reset_tokens s)
  then raise IntegrityError
  else modify (set_password_reset_tokens
                 (password_reset_tokens s
                    ++ [PasswordResetToken.mk uid token false expires_at now])).

(** [send_mail(..., fail_silently=True)]. *)
Definition send_mail (request : Request.t) (recipient body : string) : M unit :=
  if Request.mail_ok request
  then modify (fun s => set_outbox (outbox s ++ [mkMail recipient body]) s)
  else ret tt.

Definition reset_request_ok : Response.t :=
  Response.mk HTTP_200_OK true "Password reset email sent successfully" [] None None.

Definition reset_request_failed (errors : list (string * string)) : Response.t :=
  Response.mk HTTP_400_BAD_REQUEST false "Password reset request failed" errors None None.

Definition PasswordResetRequestView_post `{Collaborators} (cfg : Settings)
    (request : Request.t) : M Response.t :=
  s <- get_state ;;
  v <- lift (PasswordResetRequestSerializer_is_valid s (Request.data request)) ;;
  match v with
  | Valid email =>
      user <- lift (objects_get (by_email email) (users s)) ;;
      let token := get_random_string (Request.entropy request) 64 in
      let expires_at := (Request.now request + timedelta_hours 24)%Z in
      modify (fun s => set_password_reset_tokens
                (objects_delete (by_owner (User.id user)) (password_reset_tokens s)) s) ;;;
      PasswordResetToken_create (User.id user) token expires_at (Request.now request) ;;;
      let reset_url := (FRONTEND_URL cfg ++ "/reset-password?token=" ++ token)%string in
      try_except (send_mail request email reset_url)
        (fun _ => logger_error "Failed to send password reset email") ;;;
      ret reset_request_ok
  | Invalid errors => ret (reset_request_failed errors)
  end.

(** [token_obj.save()]: the row that carries the token string is rewritten. *)
Definition PasswordResetToken_save (r : PasswordResetToken.t) : M unit :=
  modify (fun s => set_password_reset_tokens
            (objects_update (by_token (PasswordResetToken.token r)) r
               (password_reset_tokens s)) s).

(** The statements of the success branch of [PasswordResetConfirmView.post]
    that write to the store, in program order: [user.set_password(...)]
    with [user.save()], then [token_obj.is_used = True] with
    [token_obj.save()]. *)
Definition confirm_writes `{Collaborators} (user : User.t)
    (token_obj : PasswordResetToken.t) (new_password : string) : list (M unit) :=
  [ User_save (User.with_password user (make_password new_password));
    PasswordResetToken_save (PasswordResetToken.mark_used token_obj) ].

Fixpoint run_all (ws : list (M unit)) : M unit :=
  match ws with
  | [] => ret tt
  | w :: ws' => w ;;; run_all ws'
  end.

Definition reset_confirm_ok : Response.t :=
  Response.mk HTTP_200_OK true "Password reset successful" [] None None.

Definition reset_confirm_failed (errors : list (string * string)) : Response.t :=
  Response.mk HTTP_400_BAD_REQUEST false "Password reset failed" errors None None.

(** [PasswordResetConfirmView.post], stopped after [k] of its writes; the
    response is sent only when the view ran to its end. *)
Definition PasswordResetConfirmView_post_upto `{Collaborators} (k : nat)
    (request : Request.t) : M (option Response.t) :=
  s <- get_state ;;
  v <- lift (PasswordResetConfirmSerializer_is_valid s (Request.now request)
               (Request.data request)) ;;
  match v with
  | Valid (token, new_password) =>
      token_obj <- lift (objects_get (by_token token) (password_reset_tokens s)) ;;
      user <- lift (objects_get (by_id (PasswordResetToken.user token_obj)) (users s)) ;;
      let writes := confirm_writes user token_obj new_password in
      run_all (firstn k writes) ;;;
      ret (if (List.length writes <=? k)%nat then Some reset_confirm_ok else None)
  | Invalid errors => ret (Some (reset_confirm_failed errors))
  end.

Definition PasswordResetConfirmView_post `{Collaborators} (request : Request.t)
  : M Response.t :=
  s <- get_state ;;
  v <- lift (PasswordResetConfirmSerializer_is_valid s (Request.now request)
               (Request.data request)) ;;
  match v with
  | Valid (token, new_password) =>
      token_obj <- lift (objects_get (by_token token) (password_reset_tokens s)) ;;
      user <- lift (objects_get (by_id (PasswordResetToken.user token_obj)) (users s)) ;;
      run_all (confirm_writes user token_obj new_password) ;;;
      ret reset_confirm_ok
  | Invalid errors => ret (reset_confirm_failed errors)
  end.

(** [user_info]: the profile of the authenticated user is read, and created
    when the user has none. *)
Definition user_info (request : Request.t) : M Response.t :=
  match Request.user request with
  | None => raise NotAuthenticated
  | Some user =>
      s <- get_state ;;
      match objects_get (by_profile_user (User.id user)) (profiles s) with
      | inr _ => ret tt
      | inl DoesNotExist => UserProfile_create (User.id user)
      | inl e => raise e
      end ;;;
      ret (Response.mk HTTP_200_OK true "" [] (Some (User.id user)) None)
  end.

(** The session table without one session bound to [uid]. *)
Fixpoint remove_one (uid : nat) (l : list nat) : list nat :=
  match l with
  | [] => []
  | x :: l' => if (x =? uid)%nat then l' else x :: remove_one uid l'
  end.

(** [django.contrib.auth.logout]: the session of the request is flushed;
    [session_bound] tells whether the request carries a session bound to
    the user (a request authenticated by its bearer token carries none). *)
Definition logout (session_bound : bool) (user : User.t) : M unit :=
  if session_bound
  then modify (fun s => set_sessions (remove_one (User.id user) (sessions s)) s)
  else ret tt.

(** [LogoutView.post]: [request.user.auth_token] is the row of the
    one-to-one relation, [delete()] removes the row of that key; whatever
    the lookup or the deletion raises is dropped. *)
Definition LogoutView_post (session_bound : bool) (request : Request.t) : M Response.t :=
  match Request.user request with
  | None => raise NotAuthenticated
  | Some user =>
      try_except
        (s <- get_state ;;
         auth_token <- lift (objects_get (by_token_user (User.id user)) (auth_tokens s)) ;;
         modify (fun s => set_auth_tokens
                   (objects_delete (by_key (Token.key auth_token)) (auth_tokens s)) s))
        (fun _ => ret tt) ;;;
      logout session_bound user ;;;
      ret (Response.mk HTTP_200_OK true "Logout successful" [] None None)
  end.

(** [RegisterSerializer.validate].  [attrs] is read with [attrs.get], which
    gives [None] for an entry that was not submitted; a filter on [None]
    selects the rows whose column is NULL, and neither [username] nor
    [email] is nullable. *)
Module RegisterAttrs.
Record t := mk {
  username : option string;
  email : option string;
  password : option string;
  password_confirm : option string;
  first_name : option string;
  last_name : option string }.
End RegisterAttrs.

Definition option_string_eqb (a b : option string) : bool :=
  match a, b with
  | Some x, Some y => x =? y
  | None, None => true
  | _, _ => false
  end.

Definition stored_with (column : User.t -> string) (value : option string)
    (table : list User.t) : bool :=
  match value with
  | Some v => objects_exists (fun u => column u =? v) table
  | None => false
  end.

Definition RegisterSerializer_validate (s : State) (attrs : RegisterAttrs.t)
  : exn + RegisterAttrs.t :=
  if negb (option_string_eqb (RegisterAttrs.password attrs)
             (RegisterAttrs.password_confirm attrs))
  then inl (ValidationError "Passwords do not match.")
  else if stored_with User.username (RegisterAttrs.username attrs) (users s)
  then inl (ValidationError "Username already exists.")
  else if stored_with User.email (RegisterAttrs.email attrs) (users s)
  then inl (ValidationError "Email already exists.")
  else inr attrs.

(** ** Vocabulary of the properties *)

(** A computation keeps the part [f] of the store. *)
Definition keeps {X A : Type} (f : State -> X) (m : M A) : Prop :=
  forall s, f (fst (m s)) = f s.

(** The constraint [unique=True] of [PasswordResetToken.token]. *)
Definition tokens_unique (s : State) : Prop :=
  NoDup (map PasswordResetToken.token (password_reset_tokens s)).

(** The row a reset request creates for the user [uid]. *)
Definition issued_row (uid : nat) (request : Request.t) : PasswordResetToken.t :=
  PasswordResetToken.mk uid (get_random_string (Request.entropy request) 64) false
    (Request.now request + timedelta_hours 24)%Z (Request.now request).

(** The store once [send_mail] has returned. *)
Definition after_mail (request : Request.t) (recipient body : string) (s : State) : State :=
  if Request.mail_ok request
  then set_outbox (outbox s ++ [mkMail recipient body]) s
  else s.

(** The filter [email=value, is_active=True]. *)
Definition active_with_email (email : string) (u : User.t) : bool :=
  by_email email u && User.is_active u.

(** The store after [k] of the writes of a confirmation. *)
Definition store_after_writes `{Collaborators} (k : nat) (user : User.t)
    (token_obj : PasswordResetToken.t) (new_password : string) (s : State) : State :=
  fst (run_all (firstn k (confirm_writes user token_obj new_password)) s).

(** The requests of the token lifecycle: a reset request (issue) and a
    reset confirmation (consume), run one after the other. *)
Inductive op : Type :=
| Issue (request : Request.t)
| Consume (request : Request.t).

Definition run_op `{Collaborators} (cfg : Settings) (o : op) (s : State) : State :=
  match o with
  | Issue request => fst (PasswordResetRequestView_post cfg request s)
  | Consume request => fst (PasswordResetConfirmView_post request s)
  end.

Definition run_ops `{Collaborators} (cfg : Settings) (ops : list op) (s : State) : State :=
  fold_left (fun s o => run_op cfg o s) ops s.

(** The stores the lifecycle reaches from a store without reset tokens. *)
Definition reachable `{Collaborators} (cfg : Settings) (s : State) : Prop :=
  exists s0 ops, password_reset_tokens s0 = [] /\ s = run_ops cfg ops s0.







(** The one-to-one constraint of [UserProfile.user]. *)
Definition profiles_unique (s : State) : Prop :=
  NoDup (map UserProfile.user (profiles s)).

(** The constraints of the bearer-token table: unique key, one row per
    user. *)
Definition auth_tokens_unique (s : State) : Prop :=
  NoDup (map Token.key (auth_tokens s)) /\ NoDup (map Token.user (auth_tokens s)).



(** The character [c] does not occur in [s]. *)
Definition free_of (c : ascii) (s : string) : Prop :=
  ~ In c (list_ascii_of_string s).

(** The answer of a successful login. *)
Definition login_answer (user : User.t) (t : Token.t) : Response.t :=
  Response.mk HTTP_200_OK true "Login successful" [] (Some (User.id user))
    (Some (Token.key t)).

(** The request with the mail backend up or down. *)
Definition with_mail_ok (up : bool) (request : Request.t) : Request.t :=
  Request.mk (Request.data request) (Request.META request) (Request.user request)
    (Request.now request) (Request.entropy request) (Request.token_key request) up.

(** ** A concrete instance of the collaborators, and sample data *)

#[local] Instance demo_collaborators : Collaborators := {|
  make_password raw := ("pbkdf2$" ++ raw)%string;
  check_password raw encoded := (("pbkdf2$" ++ raw)%string =? encoded);
  email_format_ok v := existsb (Ascii.eqb "@"%char) (list_ascii_of_string v) |}.

Definition alice : User.t :=
  User.mk 1 "alice" "alice@example.org" "pbkdf2$wonderland" true.
Definition bob : User.t :=
  User.mk 2 "bob" "bob@example.org" "pbkdf2$builder" false.

(** The sample store: alice is active, bob is deactivated. *)
Definition st0 : State := mkState [alice; bob] [] [] [] [] [] [] [].

Definition mk_request (data META : list (string * string)) (now : datetime)
    (entropy : nat -> nat) : Request.t :=
  Request.mk data META None now entropy "9944b09199c62bcf9418ad846dd0e4bbdfc6ee4b" true.

Definition login_request (username password : string) : Request.t :=
  mk_request [("username", username); ("password", password)]
    [("REMOTE_ADDR", "10.0.0.1"); ("HTTP_USER_AGENT", "curl/8.0")] 0%Z (fun i => i).

Definition reset_request (email : string) (now : datetime) (entropy : nat -> nat)
  : Request.t :=
  mk_request [("email", email)] [] now entropy.

(** The sample store after alice requested a reset at time 0: she holds the
    pending token [T1], which expires after 24 hours. *)
Definition st1 : State :=
  fst (PasswordResetRequestView_post global_settings
         (reset_request "alice@example.org" 0%Z (fun i => i)) st0).

Definition T1 : string := get_random_string (fun i => i) 64.

Definition confirm_request (token new_password new_password_confirm : string)
    (now : datetime) : Request.t :=
  mk_request [("token", token); ("new_password", new_password);
              ("new_password_confirm", new_password_confirm)] [] now (fun i => i).

Definition change_request : Request.t :=
  Request.mk [("old_password", "wonderland"); ("new_password", "NewPass1!");
              ("new_password_confirm", "NewPass1!")] [] (Some alice) 0%Z (fun i => i)
    "5f1d3c0a7b9e4d2c8a6f0b1e3d5c7a9b2e4f6a8c" true.

(** The sample store with a bearer token for each user. *)
Definition st_logged_in : State :=
  set_auth_tokens [Token.mk "9944b09199c62bcf9418ad846dd0e4bbdfc6ee4b" 1;
                   Token.mk "0c1d2e3f4a5b6c7d8e9f0a1b2c3d4e5f6a7b8c9d" 2] st0.

(** * Properties *)

(** ** The ORM manager *)

Section ManagerFacts.
Context {A : Type}.
Implicit Types (p q same : A -> bool) (l : list A) (r x : A).

Lemma objects_get_found p l r :
  objects_get p l = inr r -> filter p l = [r].
Proof.
  unfold objects_get. destruct (filter p l) as [|x [|y t]]; intros E; try discriminate.
  now inversion E.
Qed.

Lemma objects_get_single p l r :
  filter p l = [r] -> objects_get p l = inr r.
Proof. unfold objects_get. now intros ->. Qed.

Lemma objects_get_missing p l :
  objects_get p l = inl DoesNotExist <-> filter p l = [].
Proof.
  unfold objects_get. destruct (filter p l) as [|x [|y t]]; split; intros E;
    try discriminate; reflexivity.
Qed.

Lemma objects_get_In p l r :
  objects_get p l = inr r -> In r l /\ p r = true.
Proof.
  intros E. apply objects_get_found in E.
  apply filter_In. rewrite E. now left.
Qed.

Lemma filter_nil_iff p l :
  filter p l = [] <-> (forall x, In x l -> p x = false).
Proof.
  induction l as [|a l IH]; simpl.
  - split; [intros _ x [] | reflexivity].
  - destruct (p a) eqn:Ea; split.
    + discriminate.
    + intros F. specialize (F a (or_introl eq_refl)). congruence.
    + intros E x [<- | Hx]; [assumption | now apply IH].
    + intros F. apply IH. intros x Hx. apply F. now right.
Qed.

Lemma objects_exists_false p l :
  objects_exists p l = false <-> filter p l = [].
Proof.
  unfold objects_exists. rewrite filter_nil_iff. split.
  - intros E x Hx. destruct (p x) eqn:Ex; [|reflexivity].
    assert (existsb p l = true) by (apply existsb_exists; eauto). congruence.
  - intros F. destruct (existsb p l) eqn:E; [|reflexivity].
    apply existsb_exists in E as (x & Hx & Ex). rewrite (F x Hx) in Ex. discriminate.
Qed.

Lemma filter_delete_same p l :
  filter p (objects_delete p l) = [].
Proof.
  apply filter_nil_iff. intros x Hx. unfold objects_delete in Hx.
  apply filter_In in Hx as [_ Hx]. now destruct (p x).
Qed.

Lemma filter_delete_comm p q l :
  filter q (objects_delete p l) = objects_delete p (filter q l).
Proof.
  unfold objects_delete. induction l as [|a l IH]; simpl; [reflexivity|].
  destruct (p a) eqn:Ep, (q a) eqn:Eq; simpl; rewrite ?Ep, ?Eq; simpl; now rewrite IH.
Qed.

Lemma delete_idempotent p l :
  objects_delete p (objects_delete p l) = objects_delete p l.
Proof.
  unfold objects_delete. induction l as [|a l IH]; simpl; [reflexivity|].
  destruct (p a) eqn:Ep; simpl; rewrite ?Ep; simpl; now rewrite IH.
Qed.


(** Rewriting the rows selected by [same] with a row that [q] treats like
    them does not change what [q] selects, up to the rewriting. *)
Lemma filter_update same q r l :
  (forall x, In x l -> same x = true -> q x = q r) ->
  filter q (objects_update same r l) = objects_update same r (filter q l).
Proof.
  unfold objects_update. induction l as [|a l IH]; intros F; simpl; [reflexivity|].
  assert (IH' := IH (fun x Hx => F x (or_intror Hx))).
  destruct (same a) eqn:Es.
  - rewrite <- (F a (or_introl eq_refl) Es).
    destruct (q a); simpl; rewrite ?Es; now rewrite IH'.
  - destruct (q a); simpl; rewrite ?Es; now rewrite IH'.
Qed.


Lemma update_single same r x :
  same x = true -> objects_update same r [x] = [r].
Proof. intros E. simpl. now rewrite E. Qed.

Lemma update_untouched same r l :
  (forall x, In x l -> same x = false) -> objects_update same r l = l.
Proof.
  intros F. unfold objects_update. induction l as [|a l IH]; simpl; [reflexivity|].
  rewrite (F a (or_introl eq_refl)). f_equal. apply IH. intros x Hx. apply F. now right.
Qed.
End ManagerFacts.

(** ** Tables a computation leaves alone *)

Section Keeps.
Context {X : Type} (f : State -> X).

Lemma keeps_ret {A} (a : A) : keeps f (ret a).
Proof. now intros s. Qed.

Lemma keeps_raise {A} (e : exn) : keeps f (@raise A e).
Proof. now intros s. Qed.

Lemma keeps_lift {A} (r : exn + A) : keeps f (lift r).
Proof. now intros s. Qed.

Lemma keeps_get_state : keeps f get_state.
Proof. now intros s. Qed.

Lemma keeps_modify (g : State -> State) :
  (forall s, f (g s) = f s) -> keeps f (modify g).
Proof. intros H s. apply H. Qed.

Lemma keeps_bind {A B} (m : M A) (k : A -> M B) :
  keeps f m -> (forall a, keeps f (k a)) -> keeps f (bind m k).
Proof.
  intros Hm Hk s. unfold bind. specialize (Hm s).
  destruct (m s) as [s' [e|a]]; simpl in *; [assumption|].
  now rewrite Hk.
Qed.

Lemma keeps_try_except {A} (body : M A) (handler : exn -> M A) :
  keeps f body -> (forall e, keeps f (handler e)) -> keeps f (try_except body handler).
Proof.
  intros Hb Hh s. unfold try_except. specialize (Hb s).
  destruct (body s) as [s' [e|a]]; simpl in *; [|assumption].
  now rewrite Hh.
Qed.
End Keeps.

Ltac keeps_step :=
  match goal with
  | |- keeps _ (bind _ _) => apply keeps_bind; [|intros]
  | |- keeps _ (try_except _ _) => apply keeps_try_except; [|intros]
  | |- keeps _ (ret _) => apply keeps_ret
  | |- keeps _ (raise _) => apply keeps_raise
  | |- keeps _ (lift _) => apply keeps_lift
  | |- keeps _ get_state => apply keeps_get_state
  | |- keeps _ (modify _) => apply keeps_modify; intros; reflexivity
  | |- keeps _ (logger_error _) => apply keeps_modify; intros; reflexivity
  | |- keeps _ (if ?b then _ else _) => destruct b
  | |- keeps _ (match ?x with _ => _ end) => destruct x
  end.

Ltac keeps_auto := repeat keeps_step.

Lemma UserProfile_create_keeps {X} (f : State -> X) uid :
  (forall l s, f (set_profiles l s) = f s) ->
  keeps f (UserProfile_create uid).
Proof.
  intros Hp. unfold UserProfile_create. keeps_auto. apply keeps_modify. intros; apply Hp.
Qed.

Lemma post_save_User_keeps {X} (f : State -> X) instance created :
  (forall l s, f (set_profiles l s) = f s) ->
  (forall l s, f (set_log l s) = f s) ->
  keeps f (post_save_User instance created).
Proof.
  intros Hp Hl. unfold post_save_User, create_user_profile, save_user_profile.
  keeps_auto; try (apply UserProfile_create_keeps; assumption);
    apply keeps_modify; intros; apply Hl.
Qed.

(** ** The login audit *)

(** The lookup of [_get_client_ip] on the view fails, whatever the request:
    the function is bound in the module, not in the class. *)
Lemma LoginView_has_no_get_client_ip :
  existsb (String.eqb "_get_client_ip") (LoginView_attrs ++ APIView_attrs) = false.
Proof. reflexivity. Qed.

Lemma log_login_attempt_is_swallowed request username success s :
  LoginView__log_login_attempt request username success s
  = (set_log (log s ++ ["Failed to log login attempt"]) s, inr tt).
Proof.
  unfold LoginView__log_login_attempt, try_except, bind, getattr.
  rewrite LoginView_has_no_get_client_ip. reflexivity.
Qed.

Lemma log_login_attempt_keeps {X} (f : State -> X) request username success :
  (forall l s, f (set_log l s) = f s) ->
  keeps f (LoginView__log_login_attempt request username success).
Proof.
  intros Hl s. rewrite log_login_attempt_is_swallowed. apply Hl.
Qed.

Lemma Token_get_or_create_keeps {X} (f : State -> X) request user :
  (forall l s, f (set_auth_tokens l s) = f s) ->
  keeps f (Token_get_or_create request user).
Proof.
  intros Ht. unfold Token_get_or_create. keeps_auto.
  apply keeps_modify. intros; apply Ht.
Qed.

Lemma LoginView_post_keeps `{Collaborators} {X} (f : State -> X) cfg request :
  (forall l s, f (set_profiles l s) = f s) ->
  (forall l s, f (set_log l s) = f s) ->
  (forall l s, f (set_auth_tokens l s) = f s) ->
  (forall l s, f (set_sessions l s) = f s) ->
  keeps f (LoginView_post cfg request).
Proof.
  intros Hp Hl Ht Hs. unfold LoginView_post, login.
  apply keeps_bind; [keeps_step|intros s0].
  apply keeps_bind; [keeps_step|intros v].
  destruct v as [user|errors].
  - apply keeps_bind.
    { apply keeps_bind; [apply keeps_modify; intros; apply Hs|intros].
      now apply post_save_User_keeps. }
    intros _. apply keeps_bind; [now apply Token_get_or_create_keeps|intros tc].
    apply keeps_bind; [now apply log_login_attempt_keeps|intros _].
    apply keeps_bind; [keeps_step|intros s1].
    apply keeps_bind; [|intros; keeps_step].
    destruct (objects_get _ _) as [[]|]; try keeps_step.
    now apply UserProfile_create_keeps.
  - apply keeps_bind; [now apply log_login_attempt_keeps|intros; keeps_step].
Qed.

(** C1 (as the code behaves): no login call persists a LoginAttempt row.
    The audit write looks [_get_client_ip] up on the view instance, where it
    is not bound; the AttributeError is raised inside the [try] and
    swallowed, so the table of login attempts is the same before and after
    every call, successful or failed. *)
Theorem C1_login_persists_no_audit_record `{Collaborators} :
  forall cfg request s,
    login_attempts (fst (LoginView_post cfg request s)) = login_attempts s.
Proof.
  intros cfg request s. apply LoginView_post_keeps; reflexivity.
Qed.

(** The stored accounts, and so every password hash, are untouched by a
    login call. *)
Lemma LoginView_post_keeps_users `{Collaborators} cfg request s :
  users (fst (LoginView_post cfg request s)) = users s.
Proof. apply LoginView_post_keeps; reflexivity. Qed.

(** A successful and a failed login, run on the sample store: both answer
    as expected, both leave the audit table empty and an error in the log. *)
Example login_success_leaves_no_audit_row :
  let out := LoginView_post global_settings (login_request "alice" "wonderland") st0 in
  option_map Response.success (match snd out with inr r => Some r | inl _ => None end)
    = Some true
  /\ login_attempts (fst out) = []
  /\ log (fst out) = ["Failed to log login attempt"].
Proof. vm_compute. repeat split. Qed.

Example login_failure_leaves_no_audit_row :
  let out := LoginView_post global_settings (login_request "alice" "rabbit") st0 in
  option_map Response.success (match snd out with inr r => Some r | inl _ => None end)
    = Some false
  /\ login_attempts (fst out) = []
  /\ log (fst out) = ["Failed to log login attempt"].
Proof. vm_compute. repeat split. Qed.

(** ** Credential validation *)

(** With Django's default backend, [authenticate] never hands an inactive
    user to the serializer. *)
Lemma authenticate_ModelBackend_active `{Collaborators} cfg s username password user :
  AUTHENTICATION_BACKENDS cfg = ModelBackend ->
  authenticate cfg s username password = inr (Some user) ->
  User.is_active user = true.
Proof.
  unfold authenticate. intros ->.
  destruct (objects_get _ _) as [[]|u]; try discriminate.
  destruct (check_password _ _); simpl; try discriminate.
  destruct (User.is_active u) eqn:E; try discriminate.
  intros [= <-]. assumption.
Qed.

(** Hence the branch that reports a disabled account is never taken. *)
Lemma validate_never_reports_disabled `{Collaborators} cfg s attrs :
  AUTHENTICATION_BACKENDS cfg = ModelBackend ->
  LoginSerializer_validate cfg s attrs <> inl (ValidationError msg_account_disabled).
Proof.
  intros Hb. unfold LoginSerializer_validate. destruct attrs as [username password].
  destruct (truthy username && truthy password); [|discriminate].
  destruct username as [u|], password as [p|]; try discriminate.
  destruct (authenticate cfg s u p) as [e|[user|]] eqn:E.
  - intros [= ->]. unfold authenticate, objects_get in E.
    destruct (filter _ _) as [|x [|y t]]; try discriminate.
    destruct (_ && _); discriminate.
  - rewrite (authenticate_ModelBackend_active _ _ _ _ _ Hb E). discriminate.
  - discriminate.
Qed.

(** What the serializer does when the backend lets inactive users through
    ([AllowAllUsersModelBackend]): the three outcomes of the contract. *)
Lemma validate_with_AllowAllUsersModelBackend `{Collaborators} cfg s username password user :
  AUTHENTICATION_BACKENDS cfg = AllowAllUsersModelBackend ->
  username <> "" -> password <> "" ->
  objects_get (by_username username) (users s) = inr user ->
  LoginSerializer_validate cfg s (Some username, Some password)
  = if check_password password (User.password user)
    then if User.is_active user then inr user
         else inl (ValidationError msg_account_disabled)
    else inl (ValidationError msg_invalid_credentials).
Proof.
  intros Hb Hu Hp Hget. unfold LoginSerializer_validate, truthy, authenticate.
  apply String.eqb_neq in Hu, Hp. rewrite Hu, Hp, Hget, Hb. simpl.
  destruct (check_password _ _); simpl; [|reflexivity].
  now destruct (User.is_active user).
Qed.

(** C5 (as the code behaves): on the sample store under the default
    settings, bob's credentials match his stored hash and his account is
    inactive, yet validation fails with the invalid-credentials message and
    not with the disabled-account message. *)
Theorem C5_disabled_account_reported_as_invalid_credentials :
  objects_get (by_username "bob") (users st0) = inr bob
  /\ check_password "builder" (User.password bob) = true
  /\ User.is_active bob = false
  /\ LoginSerializer_validate global_settings st0 (Some "bob", Some "builder")
     = inl (ValidationError msg_invalid_credentials)
  /\ LoginSerializer_validate global_settings st0 (Some "bob", Some "builder")
     <> inl (ValidationError msg_account_disabled).
Proof. repeat split; try reflexivity. vm_compute. discriminate. Qed.

(** ** Validation of a reset token *)

Lemma by_token_true value r :
  by_token value r = true <-> PasswordResetToken.token r = value.
Proof. unfold by_token. apply String.eqb_eq. Qed.

Lemma by_token_false value r :
  by_token value r = false <-> PasswordResetToken.token r <> value.
Proof. unfold by_token. apply String.eqb_neq. Qed.

Lemma unique_token_row (l : list PasswordResetToken.t) r :
  NoDup (map PasswordResetToken.token l) -> In r l ->
  filter (by_token (PasswordResetToken.token r)) l = [r].
Proof.
  induction l as [|a l IH]; simpl; intros Hnd Hin; [contradiction|].
  inversion Hnd as [|? ? Hnotin Hnd']; subst.
  assert (Hrest : forall x, In x l ->
            by_token (PasswordResetToken.token a) x = false).
  { intros x Hx. apply by_token_false. intros E. apply Hnotin. rewrite <- E.
    now apply in_map. }
  destruct Hin as [-> | Hin].
  - replace (by_token (PasswordResetToken.token r) r) with true
      by (symmetry; now apply by_token_true).
    f_equal. now apply filter_nil_iff.
  - replace (by_token (PasswordResetToken.token r) a) with false.
    + now apply IH.
    + symmetry. apply by_token_false. intros E. apply Hnotin. rewrite E.
      now apply in_map.
Qed.

Lemma validate_token_of_row s now r :
  filter (by_token (PasswordResetToken.token r)) (password_reset_tokens s) = [r] ->
  PasswordResetConfirmSerializer_validate_token s now (PasswordResetToken.token r)
  = if PasswordResetToken.is_valid now r
    then inr (PasswordResetToken.token r)
    else inl (ValidationError msg_token_invalid).
Proof.
  intros E. unfold PasswordResetConfirmSerializer_validate_token.
  rewrite (objects_get_single _ _ _ E). now destruct (PasswordResetToken.is_valid now r).
Qed.

Lemma validate_token_no_row s now value :
  filter (by_token value) (password_reset_tokens s) = [] ->
  PasswordResetConfirmSerializer_validate_token s now value
  = inl (ValidationError msg_token_not_found).
Proof.
  intros E. unfold PasswordResetConfirmSerializer_validate_token, objects_get.
  now rewrite E.
Qed.

Lemma is_valid_false now r :
  PasswordResetToken.is_valid now r = false
  <-> PasswordResetToken.is_used r = true \/ (PasswordResetToken.expires_at r < now)%Z.
Proof.
  unfold PasswordResetToken.is_valid, PasswordResetToken.is_expired.
  destruct (PasswordResetToken.is_used r); simpl.
  - split; auto.
  - destruct (Z.ltb_spec (PasswordResetToken.expires_at r) now); simpl; split;
      intros Hx; try discriminate; auto.
    destruct Hx; [discriminate|lia].
Qed.

Lemma is_valid_true now r :
  PasswordResetToken.is_valid now r = true
  <-> PasswordResetToken.is_used r = false /\ (now <= PasswordResetToken.expires_at r)%Z.
Proof.
  unfold PasswordResetToken.is_valid, PasswordResetToken.is_expired.
  destruct (PasswordResetToken.is_used r); simpl.
  - split; [discriminate|intros []; discriminate].
  - destruct (Z.ltb_spec (PasswordResetToken.expires_at r) now); simpl; split;
      intros Hx; try discriminate; auto.
    destruct Hx; lia.
Qed.

(** C6: on a table whose token column is unique (it is declared so),
    [validate_token] fails with the not-found message exactly when no row
    carries the string, fails with the invalid message exactly when the row
    that carries it is used or its expiry is strictly before the current
    time, and otherwise succeeds, the row the view then loads being the
    one whose [user] owns the token.  One second before the expiry the
    check succeeds, one second after it fails with the invalid message. *)
Theorem C6_validate_token_outcomes :
  forall s now value,
    tokens_unique s ->
    (PasswordResetConfirmSerializer_validate_token s now value
       = inl (ValidationError msg_token_not_found)
     <-> (forall r, In r (password_reset_tokens s) -> PasswordResetToken.token r <> value))
    /\ (PasswordResetConfirmSerializer_validate_token s now value
          = inl (ValidationError msg_token_invalid)
        <-> exists r, In r (password_reset_tokens s)
                      /\ PasswordResetToken.token r = value
                      /\ (PasswordResetToken.is_used r = true
                          \/ (PasswordResetToken.expires_at r < now)%Z))
    /\ (forall r, In r (password_reset_tokens s) ->
                  PasswordResetToken.token r = value ->
                  PasswordResetToken.is_used r = false ->
                  (now <= PasswordResetToken.expires_at r)%Z ->
                  PasswordResetConfirmSerializer_validate_token s now value = inr value
                  /\ objects_get (by_token value) (password_reset_tokens s) = inr r)
    /\ (forall r, In r (password_reset_tokens s) ->
                  PasswordResetToken.token r = value ->
                  PasswordResetToken.is_used r = false ->
                  PasswordResetConfirmSerializer_validate_token s
                    (PasswordResetToken.expires_at r - one_second)%Z value = inr value
                  /\ PasswordResetConfirmSerializer_validate_token s
                       (PasswordResetToken.expires_at r + one_second)%Z value
                     = inl (ValidationError msg_token_invalid)).
Proof.
  intros s now value Hu.
  assert (Hrow : forall r now', In r (password_reset_tokens s) ->
            PasswordResetToken.token r = value ->
            PasswordResetConfirmSerializer_validate_token s now' value
            = if PasswordResetToken.is_valid now' r then inr value
              else inl (ValidationError msg_token_invalid)).
  { intros r now' Hin <-. apply validate_token_of_row. now apply unique_token_row. }
  assert (Hcases : (forall r, In r (password_reset_tokens s) ->
                      PasswordResetToken.token r <> value)
                   \/ exists r, In r (password_reset_tokens s)
                                /\ PasswordResetToken.token r = value).
  { destruct (filter (by_token value) (password_reset_tokens s)) as [|r t] eqn:E.
    - left. intros r Hr. apply by_token_false.
      now apply (proj1 (filter_nil_iff _ _) E).
    - right. exists r. rewrite <- by_token_true. apply filter_In. rewrite E. now left. }
  split; [split|split; [split|split]].
  - intros Hv r Hin Htok. rewrite (Hrow r now Hin Htok) in Hv.
    destruct (PasswordResetToken.is_valid now r); discriminate.
  - intros Hno. apply validate_token_no_row. apply filter_nil_iff.
    intros x Hx. apply by_token_false. now apply Hno.
  - intros Hv. destruct Hcases as [Hno | (r & Hin & Htok)].
    + rewrite validate_token_no_row in Hv; [discriminate|].
      apply filter_nil_iff. intros x Hx. apply by_token_false. now apply Hno.
    + exists r. repeat split; try assumption. apply is_valid_false.
      rewrite (Hrow r now Hin Htok) in Hv.
      destruct (PasswordResetToken.is_valid now r); [discriminate|reflexivity].
  - intros (r & Hin & Htok & Hbad). rewrite (Hrow r now Hin Htok).
    apply is_valid_false in Hbad. now rewrite Hbad.
  - intros r Hin Htok Hused Hnow. split.
    + rewrite (Hrow r now Hin Htok).
      now rewrite (proj2 (is_valid_true now r) (conj Hused Hnow)).
    + subst value. apply objects_get_single. now apply unique_token_row.
  - intros r Hin Htok Hused. split.
    + rewrite (Hrow r _ Hin Htok). rewrite (proj2 (is_valid_true _ r)); [reflexivity|].
      split; [assumption|unfold one_second; lia].
    + rewrite (Hrow r _ Hin Htok).
      assert (E : PasswordResetToken.is_valid
                    (PasswordResetToken.expires_at r + one_second)%Z r = false).
      { apply is_valid_false. right. unfold one_second. lia. }
      now rewrite E.
Qed.

Lemma C6_validate_token_outcomes_witness :
  tokens_unique st1
  /\ PasswordResetConfirmSerializer_validate_token st1
       (timedelta_hours 24 - one_second)%Z T1 = inr T1
  /\ PasswordResetConfirmSerializer_validate_token st1
       (timedelta_hours 24 + one_second)%Z T1 = inl (ValidationError msg_token_invalid).
Proof.
  assert (Hu : tokens_unique st1).
  { unfold tokens_unique. vm_compute. constructor; [intros []|constructor]. }
  split; [exact Hu|].
  destruct (C6_validate_token_outcomes st1 0%Z T1 Hu) as (_ & _ & _ & Hedge).
  apply (Hedge (PasswordResetToken.mk 1 T1 false (timedelta_hours 24) 0%Z)).
  - vm_compute. now left.
  - reflexivity.
  - reflexivity.
Defined.

(** ** Issuing a reset token *)

(** The view, statement by statement. *)
Lemma PasswordResetRequestView_post_eq `{Collaborators} cfg request s :
  PasswordResetRequestView_post cfg request s =
  match PasswordResetRequestSerializer_is_valid s (Request.data request) with
  | inl e => (s, inl e)
  | inr (Invalid errors) => (s, inr (reset_request_failed errors))
  | inr (Valid email) =>
      match objects_get (by_email email) (users s) with
      | inl e => (s, inl e)
      | inr user =>
          let rest := objects_delete (by_owner (User.id user)) (password_reset_tokens s) in
          let row := issued_row (User.id user) request in
          if objects_exists (by_token (PasswordResetToken.token row)) rest
          then (set_password_reset_tokens rest s, inl IntegrityError)
          else (after_mail request email
                  (FRONTEND_URL cfg ++ "/reset-password?token="
                     ++ PasswordResetToken.token row)%string
                  (set_password_reset_tokens (rest ++ [row]) s),
                inr reset_request_ok)
      end
  end.
Proof.
  unfold PasswordResetRequestView_post, bind, get_state, lift.
  destruct (PasswordResetRequestSerializer_is_valid _ _) as [e|[email|errors]];
    try reflexivity.
  destruct (objects_get _ _) as [e|user]; try reflexivity.
  unfold modify, PasswordResetToken_create, bind, get_state. cbn [password_reset_tokens set_password_reset_tokens issued_row PasswordResetToken.token].
  destruct (objects_exists _ _); try reflexivity.
  unfold try_except, send_mail, after_mail, modify, raise, ret.
  destruct (Request.mail_ok request); reflexivity.
Qed.

Lemma reset_request_is_valid_eq `{Collaborators} s data email :
  dict_get "email" data = Some email ->
  email <> "" -> email_format_ok email = true ->
  PasswordResetRequestSerializer_is_valid s data
  = if objects_exists (active_with_email email) (users s)
    then inr (Valid email)
    else inr (Invalid [("email", msg_no_active_user)]).
Proof.
  intros Hd Hne Hfmt.
  unfold PasswordResetRequestSerializer_is_valid, EmailField, run_validate_field,
    PasswordResetRequestSerializer_validate_email.
  rewrite Hd. apply String.eqb_neq in Hne. rewrite Hne, Hfmt.
  fold (active_with_email email).
  now destruct (objects_exists _ _).
Qed.





(** C3 (as stated, refuted): two emails of valid format, one of a
    registered account and one unknown, get different responses. *)
Lemma C3_reset_request_reveals_registration :
  email_format_ok "alice@example.org" = true
  /\ email_format_ok "carol@example.org" = true
  /\ objects_exists (by_email "alice@example.org") (users st0) = true
  /\ objects_exists (by_email "carol@example.org") (users st0) = false
  /\ snd (PasswordResetRequestView_post global_settings
            (reset_request "alice@example.org" 0%Z (fun i => i)) st0)
     = inr reset_request_ok
  /\ snd (PasswordResetRequestView_post global_settings
            (reset_request "carol@example.org" 0%Z (fun i => i)) st0)
     = inr (reset_request_failed [("email", msg_no_active_user)])
  /\ reset_request_ok <> reset_request_failed [("email", msg_no_active_user)].
Proof. repeat split; try reflexivity. discriminate. Qed.

(** C3 (amended): for an email of valid format the response is the
    rejection with the no-active-user message exactly when no active
    account carries the email; when exactly one account carries it, that
    account is active and the drawn token string is not stored for another
    account, the response is the acknowledgement. *)
Theorem C3_reset_request_response `{Collaborators} :
  forall cfg request s email,
    dict_get "email" (Request.data request) = Some email ->
    email <> "" -> email_format_ok email = true ->
    (snd (PasswordResetRequestView_post cfg request s)
       = inr (reset_request_failed [("email", msg_no_active_user)])
     <-> objects_exists (active_with_email email) (users s) = false)
    /\ (forall user,
          filter (by_email email) (users s) = [user] ->
          User.is_active user = true ->
          objects_exists
            (by_token (get_random_string (Request.entropy request) 64))
            (objects_delete (by_owner (User.id user)) (password_reset_tokens s)) = false ->
          snd (PasswordResetRequestView_post cfg request s) = inr reset_request_ok).
Proof.
  intros cfg request s email Hd Hne Hfmt.
  rewrite PasswordResetRequestView_post_eq, (reset_request_is_valid_eq s _ email Hd Hne Hfmt).
  split; [split|].
  - destruct (objects_exists _ _); [|reflexivity].
    destruct (objects_get _ _) as [e|user]; [discriminate|].
    cbv zeta. destruct (objects_exists _ _); discriminate.
  - intros ->. reflexivity.
  - intros user Huser Hact Hfresh.
    assert (Hex : objects_exists (active_with_email email) (users s) = true).
    { destruct (objects_exists (active_with_email email) (users s)) eqn:E; [reflexivity|].
      apply objects_exists_false in E.
      assert (Hin : In user (filter (by_email email) (users s))) by (rewrite Huser; now left).
      apply filter_In in Hin as [Hin Hby].
      apply (proj1 (filter_nil_iff _ _) E) in Hin.
      unfold active_with_email in Hin. rewrite Hby, Hact in Hin. discriminate. }
    rewrite Hex, (objects_get_single _ _ _ Huser). cbv zeta.
    cbn [issued_row PasswordResetToken.token]. rewrite Hfresh. reflexivity.
Qed.

Lemma C3_reset_request_response_witness :
  snd (PasswordResetRequestView_post global_settings
         (reset_request "alice@example.org" 0%Z (fun i => i)) st0)
  = inr reset_request_ok.
Proof.
  refine (proj2 (C3_reset_request_response global_settings
                   (reset_request "alice@example.org" 0%Z (fun i => i)) st0
                   "alice@example.org" eq_refl _ eq_refl) alice eq_refl eq_refl eq_refl).
  discriminate.
Defined.

Lemma reset_request_is_valid_inv `{Collaborators} s data email :
  PasswordResetRequestSerializer_is_valid s data = inr (Valid email) ->
  dict_get "email" data = Some email
  /\ objects_exists (active_with_email email) (users s) = true.
Proof.
  unfold PasswordResetRequestSerializer_is_valid, EmailField, run_validate_field,
    PasswordResetRequestSerializer_validate_email.
  destruct (dict_get "email" data) as [v|]; [|discriminate].
  destruct (v =? ""); [discriminate|].
  destruct (email_format_ok v); [|discriminate].
  fold (active_with_email v).
  destruct (objects_exists (active_with_email v) (users s)) eqn:E; simpl; [|discriminate].
  intros [= <-]. now split.
Qed.

Lemma after_mail_tokens request recipient body s :
  password_reset_tokens (after_mail request recipient body s) = password_reset_tokens s.
Proof. unfold after_mail. now destruct (Request.mail_ok request). Qed.

Lemma after_mail_users request recipient body s :
  users (after_mail request recipient body s) = users s.
Proof. unfold after_mail. now destruct (Request.mail_ok request). Qed.

(** What a successful reset request did. *)
Lemma reset_request_ok_inv `{Collaborators} cfg request s s' :
  PasswordResetRequestView_post cfg request s = (s', inr reset_request_ok) ->
  exists email user,
    dict_get "email" (Request.data request) = Some email
    /\ objects_get (by_email email) (users s) = inr user
    /\ filter (by_token (get_random_string (Request.entropy request) 64))
         (objects_delete (by_owner (User.id user)) (password_reset_tokens s)) = []
    /\ password_reset_tokens s'
       = objects_delete (by_owner (User.id user)) (password_reset_tokens s)
           ++ [issued_row (User.id user) request]
    /\ users s' = users s.
Proof.
  rewrite PasswordResetRequestView_post_eq.
  destruct (PasswordResetRequestSerializer_is_valid _ _) as [e|[email|errors]] eqn:Ev;
    try discriminate.
  destruct (objects_get _ _) as [e|user] eqn:Eu; try discriminate.
  cbv zeta. cbn [issued_row PasswordResetToken.token].
  destruct (objects_exists _ _) eqn:Ex; try discriminate.
  intros [= <-]. exists email, user.
  apply reset_request_is_valid_inv in Ev as [Hd _].
  repeat split; try assumption.
  - now apply objects_exists_false.
  - now rewrite after_mail_tokens.
  - now rewrite after_mail_users.
Qed.

Lemma by_owner_true uid r : by_owner uid r = true <-> PasswordResetToken.user r = uid.
Proof. unfold by_owner. apply Nat.eqb_eq. Qed.

Lemma delete_owner_app uid (l : list PasswordResetToken.t) row :
  PasswordResetToken.user row = uid ->
  objects_delete (by_owner uid) (l ++ [row]) = objects_delete (by_owner uid) l.
Proof.
  intros Ho. unfold objects_delete. rewrite filter_app. simpl.
  rewrite (proj2 (by_owner_true uid row) Ho). simpl. apply app_nil_r.
Qed.

(** C4 (as stated, refuted): alice is issued a token, then a second one a
    second later; checking the first token while its expiry is still a day
    away fails with the not-found message, not with the invalid message. *)
Lemma C4_replaced_token_is_not_found :
  let s2 := fst (PasswordResetRequestView_post global_settings
                   (reset_request "alice@example.org" one_second (fun i => S i)) st1) in
  objects_get (by_token T1) (password_reset_tokens st1)
    = inr (PasswordResetToken.mk 1 T1 false (timedelta_hours 24) 0%Z)
  /\ PasswordResetConfirmSerializer_validate_token st1 (2 * one_second)%Z T1 = inr T1
  /\ PasswordResetConfirmSerializer_validate_token s2 (2 * one_second)%Z T1
     = inl (ValidationError msg_token_not_found)
  /\ PasswordResetConfirmSerializer_validate_token s2 (2 * one_second)%Z T1
     <> inl (ValidationError msg_token_invalid).
Proof. vm_compute. repeat split. discriminate. Qed.

(** C4 (amended): when two reset requests for the same email both succeed
    and draw different token strings, the first token's row is gone:
    checking it fails with the not-found message at any time, and checking
    the second succeeds at any time up to 24 hours after its issuance. *)
Theorem C4_reissue_deletes_first_token `{Collaborators} :
  forall cfg req1 req2 s s1 s2,
    PasswordResetRequestView_post cfg req1 s = (s1, inr reset_request_ok) ->
    PasswordResetRequestView_post cfg req2 s1 = (s2, inr reset_request_ok) ->
    dict_get "email" (Request.data req1) = dict_get "email" (Request.data req2) ->
    get_random_string (Request.entropy req1) 64
      <> get_random_string (Request.entropy req2) 64 ->
    (forall now,
        PasswordResetConfirmSerializer_validate_token s2 now
          (get_random_string (Request.entropy req1) 64)
        = inl (ValidationError msg_token_not_found))
    /\ (forall now,
          (now <= Request.now req2 + timedelta_hours 24)%Z ->
          PasswordResetConfirmSerializer_validate_token s2 now
            (get_random_string (Request.entropy req2) 64)
          = inr (get_random_string (Request.entropy req2) 64)).
Proof.
  intros cfg req1 req2 s s1 s2 H1 H2 Hemail Hneq.
  apply reset_request_ok_inv in H1 as (e1 & u1 & Hd1 & Hu1 & Hf1 & Ht1 & Hus1).
  apply reset_request_ok_inv in H2 as (e2 & u2 & Hd2 & Hu2 & Hf2 & Ht2 & Hus2).
  assert (e2 = e1) by congruence. subst e2.
  rewrite Hus1, Hu1 in Hu2. injection Hu2 as <-.
  rewrite Ht1, delete_owner_app, delete_idempotent in Ht2 by reflexivity.
  rewrite Ht1, delete_owner_app, delete_idempotent in Hf2 by reflexivity.
  split; intros now.
  - apply validate_token_no_row. rewrite Ht2, filter_app, Hf1. simpl.
    replace (by_token _ _) with false; [reflexivity|].
    symmetry. apply by_token_false. simpl. congruence.
  - intros Hnow.
    assert (Hrow : filter (by_token (PasswordResetToken.token (issued_row (User.id u1) req2)))
                     (password_reset_tokens s2) = [issued_row (User.id u1) req2]).
    { change (PasswordResetToken.token (issued_row (User.id u1) req2))
        with (get_random_string (Request.entropy req2) 64).
      rewrite Ht2, filter_app, Hf2. cbn [filter app].
      replace (by_token _ (issued_row (User.id u1) req2)) with true; [reflexivity|].
      symmetry. now apply by_token_true. }
    etransitivity; [exact (validate_token_of_row s2 now _ Hrow)|].
    rewrite (proj2 (is_valid_true now _)); [reflexivity|].
    split; [reflexivity|exact Hnow].
Qed.

Lemma C4_reissue_deletes_first_token_witness :
  let s2 := fst (PasswordResetRequestView_post global_settings
                   (reset_request "alice@example.org" one_second (fun i => S i)) st1) in
  (forall now,
      PasswordResetConfirmSerializer_validate_token s2 now T1
      = inl (ValidationError msg_token_not_found))
  /\ (forall now,
        (now <= one_second + timedelta_hours 24)%Z ->
        PasswordResetConfirmSerializer_validate_token s2 now
          (get_random_string (fun i => S i) 64)
        = inr (get_random_string (fun i => S i) 64)).
Proof.
  apply (C4_reissue_deletes_first_token global_settings
           (reset_request "alice@example.org" 0%Z (fun i => i))
           (reset_request "alice@example.org" one_second (fun i => S i))
           st0 st1).
  - reflexivity.
  - reflexivity.
  - reflexivity.
  - vm_compute. discriminate.
Defined.

(** ** Saving a user *)

Lemma post_save_User_total instance created s :
  snd (post_save_User instance created s) = inr tt.
Proof.
  unfold post_save_User, create_user_profile, save_user_profile, UserProfile_create,
    bind, try_except, get_state, raise, modify, logger_error, ret.
  destruct created; cbn;
    repeat match goal with
           | |- context [if ?b then _ else _] => destruct b; cbn
           | |- context [match objects_get ?p ?l with _ => _ end] =>
               destruct (objects_get p l) as [[]|]; cbn
           end; reflexivity.
Qed.

Lemma User_save_run instance s :
  exists s',
    User_save instance s = (s', inr tt)
    /\ users s' = objects_update (by_id (User.id instance)) instance (users s)
    /\ password_reset_tokens s' = password_reset_tokens s
    /\ auth_tokens s' = auth_tokens s.
Proof.
  unfold User_save, bind, modify.
  pose proof (post_save_User_total instance false
                (set_users (objects_update (by_id (User.id instance)) instance (users s)) s))
    as Htot.
  pose proof (fun X (f : State -> X) Hp Hl =>
                post_save_User_keeps f instance false Hp Hl
                  (set_users (objects_update (by_id (User.id instance)) instance (users s)) s))
    as Hkeep.
  destruct (post_save_User instance false _) as [s' r]. simpl in Htot, Hkeep. subst r.
  exists s'. split; [reflexivity|].
  split; [|split].
  - now rewrite (Hkeep _ users) by reflexivity.
  - now rewrite (Hkeep _ password_reset_tokens) by reflexivity.
  - now rewrite (Hkeep _ auth_tokens) by reflexivity.
Qed.

Lemma saved_user_row (l : list User.t) user instance :
  filter (by_id (User.id instance)) l = [user] ->
  filter (by_id (User.id instance)) (objects_update (by_id (User.id instance)) instance l)
  = [instance].
Proof.
  intros E. rewrite filter_update.
  - rewrite E. apply update_single.
    assert (Hin : In user (filter (by_id (User.id instance)) l)) by (rewrite E; now left).
    now apply filter_In in Hin.
  - intros x _ ->. unfold by_id. symmetry. apply Nat.eqb_refl.
Qed.

(** ** Confirming a reset *)

Lemma confirm_writes_total `{Collaborators} k user token_obj new_password s :
  run_all (firstn k (confirm_writes user token_obj new_password)) s
  = (store_after_writes k user token_obj new_password s, inr tt).
Proof.
  unfold store_after_writes, confirm_writes.
  destruct (User_save_run (User.with_password user (make_password new_password)) s)
    as (s' & Hs' & _).
  destruct k as [|[|k]]; cbn [firstn run_all]; unfold bind; try reflexivity;
    rewrite Hs'; try reflexivity.
  rewrite firstn_nil. reflexivity.
Qed.

Lemma store_after_no_write `{Collaborators} user token_obj new_password s :
  store_after_writes 0 user token_obj new_password s = s.
Proof. reflexivity. Qed.

Lemma store_after_first_write `{Collaborators} user token_obj new_password s :
  let s1 := store_after_writes 1 user token_obj new_password s in
  users s1 = objects_update (by_id (User.id user))
               (User.with_password user (make_password new_password)) (users s)
  /\ password_reset_tokens s1 = password_reset_tokens s.
Proof.
  unfold store_after_writes, confirm_writes. cbn [firstn run_all]. unfold bind.
  destruct (User_save_run (User.with_password user (make_password new_password)) s)
    as (s' & Hs' & Hu & Ht & _).
  rewrite Hs'. cbn. now split.
Qed.

Lemma store_after_both_writes `{Collaborators} k user token_obj new_password s :
  2 <= k ->
  let s2 := store_after_writes k user token_obj new_password s in
  users s2 = objects_update (by_id (User.id user))
               (User.with_password user (make_password new_password)) (users s)
  /\ password_reset_tokens s2
     = objects_update (by_token (PasswordResetToken.token token_obj))
         (PasswordResetToken.mark_used token_obj) (password_reset_tokens s)
  /\ s2 = store_after_writes 2 user token_obj new_password s.
Proof.
  intros Hk. destruct k as [|[|k]]; try lia.
  unfold store_after_writes, confirm_writes. cbn [firstn run_all]. unfold bind.
  destruct (User_save_run (User.with_password user (make_password new_password)) s)
    as (s' & Hs' & Hu & Ht & _).
  rewrite firstn_nil, Hs'. cbn. rewrite Hu, Ht. repeat split.
Qed.

Lemma PasswordResetConfirmView_post_upto_eq `{Collaborators} k request s :
  PasswordResetConfirmView_post_upto k request s =
  match PasswordResetConfirmSerializer_is_valid s (Request.now request)
          (Request.data request) with
  | inl e => (s, inl e)
  | inr (Invalid errors) => (s, inr (Some (reset_confirm_failed errors)))
  | inr (Valid (token, new_password)) =>
      match objects_get (by_token token) (password_reset_tokens s) with
      | inl e => (s, inl e)
      | inr token_obj =>
          match objects_get (by_id (PasswordResetToken.user token_obj)) (users s) with
          | inl e => (s, inl e)
          | inr user =>
              (store_after_writes k user token_obj new_password s,
               inr (if (2 <=? k)%nat then Some reset_confirm_ok else None))
          end
      end
  end.
Proof.
  unfold PasswordResetConfirmView_post_upto, bind, get_state, lift.
  destruct (PasswordResetConfirmSerializer_is_valid _ _ _) as [e|[[token pw]|errors]];
    try reflexivity.
  destruct (objects_get _ _) as [e|token_obj]; try reflexivity.
  destruct (objects_get _ _) as [e|user]; try reflexivity.
  rewrite confirm_writes_total. reflexivity.
Qed.

Lemma PasswordResetConfirmView_post_eq `{Collaborators} request s :
  PasswordResetConfirmView_post request s =
  match PasswordResetConfirmSerializer_is_valid s (Request.now request)
          (Request.data request) with
  | inl e => (s, inl e)
  | inr (Invalid errors) => (s, inr (reset_confirm_failed errors))
  | inr (Valid (token, new_password)) =>
      match objects_get (by_token token) (password_reset_tokens s) with
      | inl e => (s, inl e)
      | inr token_obj =>
          match objects_get (by_id (PasswordResetToken.user token_obj)) (users s) with
          | inl e => (s, inl e)
          | inr user =>
              (store_after_writes 2 user token_obj new_password s, inr reset_confirm_ok)
          end
      end
  end.
Proof.
  unfold PasswordResetConfirmView_post, bind, get_state, lift.
  destruct (PasswordResetConfirmSerializer_is_valid _ _ _) as [e|[[token pw]|errors]];
    try reflexivity.
  destruct (objects_get _ _) as [e|token_obj]; try reflexivity.
  destruct (objects_get _ _) as [e|user]; try reflexivity.
  change (confirm_writes user token_obj pw)
    with (firstn 2 (confirm_writes user token_obj pw)).
  rewrite confirm_writes_total. reflexivity.
Qed.

(** What the serializer accepted. *)
Lemma confirm_is_valid_inv s now data token new_password :
  PasswordResetConfirmSerializer_is_valid s now data = inr (Valid (token, new_password)) ->
  dict_get "token" data = Some token
  /\ CharField 100 (Some token) = inr token
  /\ PasswordResetConfirmSerializer_validate_token s now token = inr token
  /\ dict_get "new_password" data = Some new_password.
Proof.
  unfold PasswordResetConfirmSerializer_is_valid, run_validate_field.
  destruct (dict_get "token" data) as [t|] eqn:Et; [|discriminate].
  destruct (CharField 100 (Some t)) as [m|t'] eqn:Ef; [discriminate|].
  assert (t' = t).
  { unfold CharField in Ef. destruct (t =? ""); [discriminate|].
    destruct (100 <? String.length t)%nat; [discriminate|]. congruence. }
  subst t'.
  destruct (PasswordResetConfirmSerializer_validate_token s now t) as [[]|v] eqn:Ev;
    try discriminate.
  assert (v = t).
  { unfold PasswordResetConfirmSerializer_validate_token in Ev.
    destruct (objects_get _ _) as [[]|r]; try discriminate.
    destruct (negb _); [discriminate|]. congruence. }
  subst v.
  destruct (dict_get "new_password" data) as [p|] eqn:Ep; [|discriminate].
  destruct (CharField 128 (Some p)) as [m|p'] eqn:Efp; [discriminate|].
  assert (p' = p).
  { unfold CharField in Efp. destruct (p =? ""); [discriminate|].
    destruct (128 <? String.length p)%nat; [discriminate|]. congruence. }
  subst p'.
  destruct (CharField 128 (dict_get "new_password_confirm" data)) as [m|c];
    [discriminate|].
  unfold run_validate, PasswordResetConfirmSerializer_validate.
  destruct (negb _); [discriminate|].
  intros [= <- <-]. repeat split; assumption.
Qed.


Lemma filter_update_same {A} (p : A -> bool) (r r' : A) (l : list A) :
  filter p l = [r] -> p r' = true ->
  filter p (objects_update p r' l) = [r'].
Proof.
  intros E Hr'. rewrite filter_update.
  - rewrite E. apply update_single.
    assert (Hin : In r (filter p l)) by (rewrite E; now left).
    now apply filter_In in Hin.
  - intros x _ ->. now symmetry.
Qed.

Lemma validated_token_unused s now token token_obj :
  PasswordResetConfirmSerializer_validate_token s now token = inr token ->
  objects_get (by_token token) (password_reset_tokens s) = inr token_obj ->
  PasswordResetToken.is_used token_obj = false.
Proof.
  unfold PasswordResetConfirmSerializer_validate_token. intros Hv Hg. rewrite Hg in Hv.
  destruct (PasswordResetToken.is_valid now token_obj) eqn:E; [|discriminate].
  now apply is_valid_true in E.
Qed.

(** C2 (as stated, refuted): alice confirms a reset with her pending
    token and the run stops after the first of the two writes.  Her stored
    hash is then the one of the new password while the token still passes
    validation, and a further confirmation with it goes through. *)
Lemma C2_interrupted_confirm_leaves_token_consumable :
  let request := confirm_request T1 "NewPass1!" "NewPass1!" one_second in
  let s' := fst (PasswordResetConfirmView_post_upto 1 request st1) in
  objects_get (by_id 1) (users st1) = inr alice
  /\ objects_get (by_id 1) (users s')
     = inr (User.with_password alice (make_password "NewPass1!"))
  /\ User.password alice <> make_password "NewPass1!"
  /\ PasswordResetConfirmSerializer_validate_token s' (2 * one_second)%Z T1 = inr T1
  /\ snd (PasswordResetConfirmView_post
            (confirm_request T1 "Other2?" "Other2?" (2 * one_second)%Z) s')
     = inr reset_confirm_ok.
Proof. vm_compute. repeat split. discriminate. Qed.

(** C2 (amended): a confirmation that fails validation writes nothing.  A
    confirmation that passes validation performs two writes in program
    order, the user's new hash and then the token's used flag, each
    committed on its own: run to its end it has made both; stopped between
    them it leaves the new hash stored and the token table as it was, so
    the token is still consumable; at no point is the token marked used
    while the stored hash is not the one of the new password. *)
Theorem C2_confirm_writes_hash_then_flag `{Collaborators} :
  forall request s,
    (forall errors,
        PasswordResetConfirmSerializer_is_valid s (Request.now request)
          (Request.data request) = inr (Invalid errors) ->
        PasswordResetConfirmView_post request s = (s, inr (reset_confirm_failed errors))
        /\ forall k, fst (PasswordResetConfirmView_post_upto k request s) = s)
    /\ (forall token new_password token_obj user,
          PasswordResetConfirmSerializer_is_valid s (Request.now request)
            (Request.data request) = inr (Valid (token, new_password)) ->
          objects_get (by_token token) (password_reset_tokens s) = inr token_obj ->
          objects_get (by_id (PasswordResetToken.user token_obj)) (users s) = inr user ->
          let hashed := User.with_password user (make_password new_password) in
          let store k := fst (PasswordResetConfirmView_post_upto k request s) in
          PasswordResetConfirmView_post request s = (store 2, inr reset_confirm_ok)
          /\ store 0 = s
          /\ objects_get (by_id (User.id user)) (users (store 1)) = inr hashed
          /\ password_reset_tokens (store 1) = password_reset_tokens s
          /\ objects_get (by_id (User.id user)) (users (store 2)) = inr hashed
          /\ objects_get (by_token token) (password_reset_tokens (store 2))
             = inr (PasswordResetToken.mark_used token_obj)
          /\ (forall k, 2 <= k -> store k = store 2)
          /\ (forall k r,
                objects_get (by_token token) (password_reset_tokens (store k)) = inr r ->
                PasswordResetToken.is_used r = true ->
                objects_get (by_id (User.id user)) (users (store k)) = inr hashed)).
Proof.
  intros request s. split.
  - intros errors Hv. split.
    + now rewrite PasswordResetConfirmView_post_eq, Hv.
    + intros k. now rewrite PasswordResetConfirmView_post_upto_eq, Hv.
  - intros token new_password token_obj user Hv Htok Huser hashed store.
    assert (Hstore : forall k, store k = store_after_writes k user token_obj new_password s).
    { intros k. unfold store.
      now rewrite PasswordResetConfirmView_post_upto_eq, Hv, Htok, Huser. }
    destruct (confirm_is_valid_inv _ _ _ _ _ Hv) as (_ & _ & Hval & _).
    pose proof (validated_token_unused _ _ _ _ Hval Htok) as Hunused.
    pose proof (objects_get_found _ _ _ Htok) as Hrow.
    pose proof (objects_get_In _ _ _ Htok) as [_ Htoken].
    apply by_token_true in Htoken.
    pose proof (objects_get_In _ _ _ Huser) as [_ Hid].
    apply Nat.eqb_eq in Hid.
    assert (Hurow : filter (by_id (User.id user)) (users s) = [user]).
    { rewrite Hid. now apply objects_get_found. }
    assert (Hsaved : objects_get (by_id (User.id user))
                       (objects_update (by_id (User.id user)) hashed (users s)) = inr hashed).
    { apply objects_get_single. apply (filter_update_same _ user); [assumption|].
      apply Nat.eqb_refl. }
    destruct (store_after_first_write user token_obj new_password s) as [Hu1 Ht1].
    destruct (store_after_both_writes 2 user token_obj new_password s (le_n 2))
      as (Hu2 & Ht2 & _).
    repeat split.
    + rewrite PasswordResetConfirmView_post_eq, Hv, Htok, Huser. now rewrite Hstore.
    + now rewrite Hstore.
    + now rewrite Hstore, Hu1.
    + now rewrite Hstore, Ht1.
    + now rewrite Hstore, Hu2.
    + rewrite Hstore, Ht2, Htoken. apply objects_get_single.
      apply (filter_update_same _ token_obj); [assumption|].
      now apply by_token_true.
    + intros k Hk. rewrite !Hstore.
      now destruct (store_after_both_writes k user token_obj new_password s Hk)
        as (_ & _ & ->).
    + intros k r Hr Hused. rewrite Hstore in *.
      destruct k as [|[|k]].
      * rewrite store_after_no_write in Hr. congruence.
      * rewrite Ht1 in Hr. congruence.
      * destruct (store_after_both_writes (S (S k)) user token_obj new_password s
                    ltac:(lia)) as (-> & _ & _).
        assumption.
Qed.

Lemma C2_confirm_writes_hash_then_flag_witness :
  let request := confirm_request T1 "NewPass1!" "NewPass1!" one_second in
  let store k := fst (PasswordResetConfirmView_post_upto k request st1) in
  PasswordResetConfirmView_post request st1 = (store 2, inr reset_confirm_ok)
  /\ objects_get (by_token T1) (password_reset_tokens (store 2))
     = inr (PasswordResetToken.mark_used
              (PasswordResetToken.mk 1 T1 false (timedelta_hours 24) 0%Z)).
Proof.
  intros request store.
  destruct (proj2 (C2_confirm_writes_hash_then_flag request st1)
              T1 "NewPass1!" (PasswordResetToken.mk 1 T1 false (timedelta_hours 24) 0%Z)
              alice eq_refl eq_refl eq_refl)
    as (Hpost & _ & _ & _ & _ & Hflag & _).
  split; [exact Hpost|exact Hflag].
Defined.

(** ** The token lifecycle as a sequence of requests *)

(** The token table after an issue: untouched (the request was rejected),
    purged of the account's rows (the insertion hit the unique constraint),
    or purged and extended by the new row. *)
Lemma issue_tokens `{Collaborators} cfg request s :
  password_reset_tokens (run_op cfg (Issue request) s) = password_reset_tokens s
  \/ exists uid,
       let rest := objects_delete (by_owner uid) (password_reset_tokens s) in
       password_reset_tokens (run_op cfg (Issue request) s) = rest
       \/ (password_reset_tokens (run_op cfg (Issue request) s)
             = rest ++ [issued_row uid request]
           /\ filter (by_token (get_random_string (Request.entropy request) 64)) rest = []).
Proof.
  unfold run_op. rewrite PasswordResetRequestView_post_eq.
  destruct (PasswordResetRequestSerializer_is_valid _ _) as [e|[email|errors]];
    try (now left).
  destruct (objects_get _ _) as [e|user]; try (now left).
  right. exists (User.id user). cbv zeta. cbn [issued_row PasswordResetToken.token].
  destruct (objects_exists _ _) eqn:Ex.
  - now left.
  - right. cbn [fst]. rewrite after_mail_tokens. split; [reflexivity|].
    now apply objects_exists_false.
Qed.

(** The token table after a consume: untouched, or the one row carrying
    the token is rewritten with its used flag set. *)
Lemma consume_tokens `{Collaborators} cfg request s :
  password_reset_tokens (run_op cfg (Consume request) s) = password_reset_tokens s
  \/ exists token_obj,
       filter (by_token (PasswordResetToken.token token_obj)) (password_reset_tokens s)
         = [token_obj]
       /\ password_reset_tokens (run_op cfg (Consume request) s)
          = objects_update (by_token (PasswordResetToken.token token_obj))
              (PasswordResetToken.mark_used token_obj) (password_reset_tokens s).
Proof.
  unfold run_op. rewrite PasswordResetConfirmView_post_eq.
  destruct (PasswordResetConfirmSerializer_is_valid _ _ _) as [e|[[token pw]|errors]];
    try (now left).
  destruct (objects_get _ _) as [e|token_obj] eqn:Et; try (now left).
  destruct (objects_get (by_id _) _) as [e|user]; try (now left).
  right. exists token_obj. cbn [fst].
  destruct (store_after_both_writes 2 user token_obj pw s (le_n 2)) as (_ & -> & _).
  split; [|reflexivity].
  pose proof (objects_get_In _ _ _ Et) as [_ Htoken]. apply by_token_true in Htoken.
  rewrite Htoken. now apply objects_get_found.
Qed.


(** *** At most one token row per account *)



(** *** The token column stays unique *)

Lemma map_token_update token_obj l :
  filter (by_token (PasswordResetToken.token token_obj)) l = [token_obj] ->
  map PasswordResetToken.token
    (objects_update (by_token (PasswordResetToken.token token_obj))
       (PasswordResetToken.mark_used token_obj) l)
  = map PasswordResetToken.token l.
Proof.
  intros _. unfold objects_update. rewrite map_map. apply map_ext_in.
  intros x _. destruct (by_token _ x) eqn:E; [|reflexivity].
  apply by_token_true in E. now rewrite E.
Qed.

(** Deleting rows keeps the token column unique. *)
Lemma delete_keeps_tokens_unique (p : PasswordResetToken.t -> bool) :
  forall table,
    NoDup (map PasswordResetToken.token table) ->
    NoDup (map PasswordResetToken.token (objects_delete p table)).
Proof.
  unfold objects_delete. intros table. induction table as [|row table IH]; simpl.
  - intros _. constructor.
  - intros Hnd. apply NoDup_cons_iff in Hnd as [Hfresh Hrest].
    destruct (p row); simpl; [now apply IH|].
    apply NoDup_cons; [|now apply IH].
    intros Hin. apply Hfresh. apply in_map_iff in Hin as (x & <- & Hx).
    apply in_map. now apply filter_In in Hx.
Qed.

Lemma run_op_tokens_unique `{Collaborators} cfg o s :
  tokens_unique s -> tokens_unique (run_op cfg o s).
Proof.
  unfold tokens_unique. intros Hu. destruct o as [request|request].
  - destruct (issue_tokens cfg request s) as [->|(u & [->|[-> Hfresh]])].
    + assumption.
    + now apply delete_keeps_tokens_unique.
    + rewrite map_app. cbn [map issued_row PasswordResetToken.token].
      apply NoDup_app.
      * now apply delete_keeps_tokens_unique.
      * constructor; [intros []|constructor].
      * intros t Hin [<-|[]]. apply in_map_iff in Hin as (x & Hx & Hin).
        apply (proj1 (filter_nil_iff _ _) Hfresh) in Hin.
        apply by_token_false in Hin. contradiction.
  - destruct (consume_tokens cfg request s) as [->|(token_obj & Hrow & ->)].
    + assumption.
    + now rewrite map_token_update.
Qed.

Lemma reachable_tokens_unique `{Collaborators} cfg s :
  reachable cfg s -> tokens_unique s.
Proof.
  intros (s0 & ops & Hinit & ->). unfold run_ops.
  assert (H0 : tokens_unique s0).
  { unfold tokens_unique. rewrite Hinit. constructor. }
  clear Hinit. revert s0 H0.
  induction ops as [|o ops IH]; intros s0 H0; simpl; [assumption|].
  apply IH. now apply run_op_tokens_unique.
Qed.

(** *** The drawn token string *)









(** ** After a token was consumed *)











(** ** Changing the password *)

Lemma by_token_user_true uid t : by_token_user uid t = true <-> Token.user t = uid.
Proof. unfold by_token_user. apply Nat.eqb_eq. Qed.

Lemma Token_get_or_create_fresh request user s :
  filter (by_token_user (User.id user)) (auth_tokens s) = [] ->
  Token_get_or_create request user s
  = let t := Token.mk (Request.token_key request) (User.id user) in
    if objects_exists (by_key (Request.token_key request)) (auth_tokens s)
    then (s, inl IntegrityError)
    else (set_auth_tokens (auth_tokens s ++ [t]) s, inr (t, true)).
Proof.
  intros Hnone. unfold Token_get_or_create, bind, get_state, objects_get.
  rewrite Hnone. cbn [Token.key]. now destruct (objects_exists _ _).
Qed.

Lemma PasswordChangeView_post_ok_inv `{Collaborators} request s s' resp :
  PasswordChangeView_post request s = (s', inr resp) ->
  Response.success resp = true ->
  exists user new_password,
    Request.user request = Some user
    /\ PasswordChangeSerializer_is_valid user (Request.data request)
       = inr (Valid new_password)
    /\ users s' = objects_update (by_id (User.id user))
                    (User.with_password user (make_password new_password)) (users s)
    /\ auth_tokens s'
       = objects_delete (by_token_user (User.id user)) (auth_tokens s)
           ++ [Token.mk (Request.token_key request) (User.id user)]
    /\ Response.token resp = Some (Request.token_key request).
Proof.
  unfold PasswordChangeView_post.
  destruct (Request.user request) as [user|]; [|discriminate].
  unfold bind, lift.
  destruct (PasswordChangeSerializer_is_valid user _) as [e|[new_password|errors]] eqn:Ev;
    try discriminate.
  - destruct (User_save_run (User.with_password user (make_password new_password)) s)
      as (s1 & Hs1 & Hu1 & _ & Ha1).
    rewrite Hs1. unfold modify.
    rewrite Token_get_or_create_fresh by apply filter_delete_same.
    cbv zeta. cbn [auth_tokens set_auth_tokens].
    destruct (objects_exists _ _); [discriminate|].
    unfold ret. cbn [fst Token.key]. intros [= <- <-] _.
    exists user, new_password. cbn. rewrite Ha1.
    split; [reflexivity|]. split; [exact Ev|]. split; [exact Hu1|]. now split.
  - intros [= <- <-]. discriminate.
Qed.

(** C10: after a successful password change the user's rows of the
    bearer-token table are exactly one row, created by this call with the
    freshly generated key, and that key is the one in the response.  Every
    row the user had before has been deleted (a row is present afterwards
    only if it is the new one), and the rows of other users are as
    before. *)
Theorem C10_password_change_rotates_token `{Collaborators} :
  forall request s s' resp,
    PasswordChangeView_post request s = (s', inr resp) ->
    Response.success resp = true ->
    exists user,
      Request.user request = Some user
      /\ auth_tokens s'
         = objects_delete (by_token_user (User.id user)) (auth_tokens s)
             ++ [Token.mk (Request.token_key request) (User.id user)]
      /\ filter (by_token_user (User.id user)) (auth_tokens s')
         = [Token.mk (Request.token_key request) (User.id user)]
      /\ Response.token resp = Some (Request.token_key request)
      /\ (forall t, In t (auth_tokens s) ->
                    Token.user t = User.id user ->
                    Token.key t <> Request.token_key request ->
                    ~ In t (auth_tokens s'))
      /\ (forall t, Token.user t <> User.id user ->
                    (In t (auth_tokens s') <-> In t (auth_tokens s))).
Proof.
  intros request s s' resp Hpost Hok.
  destruct (PasswordChangeView_post_ok_inv _ _ _ _ Hpost Hok)
    as (user & new_password & Hu & _ & _ & Ha & Hresp).
  exists user. rewrite Ha.
  split; [assumption|]. split; [reflexivity|]. split; [|split; [assumption|split]].
  - rewrite filter_app, filter_delete_same. cbn [filter app].
    replace (by_token_user (User.id user) _) with true; [reflexivity|].
    symmetry. now apply by_token_user_true.
  - intros t _ Howner Hkey Hin. apply in_app_or in Hin as [Hin|[<-|[]]].
    + unfold objects_delete in Hin. apply filter_In in Hin as [_ Hin].
      rewrite (proj2 (by_token_user_true _ _) Howner) in Hin. discriminate.
    + now apply Hkey.
  - intros t Hother. split; intros Hin.
    + apply in_app_or in Hin as [Hin|[<-|[]]].
      * unfold objects_delete in Hin. now apply filter_In in Hin.
      * now elim Hother.
    + apply in_or_app. left. unfold objects_delete. apply filter_In.
      split; [assumption|].
      destruct (by_token_user (User.id user) t) eqn:E; [|reflexivity].
      apply by_token_user_true in E. contradiction.
Qed.

Lemma C10_password_change_rotates_token_witness :
  let out := PasswordChangeView_post change_request st_logged_in in
  auth_tokens (fst out)
  = [Token.mk "0c1d2e3f4a5b6c7d8e9f0a1b2c3d4e5f6a7b8c9d" 2;
     Token.mk "5f1d3c0a7b9e4d2c8a6f0b1e3d5c7a9b2e4f6a8c" 1]
  /\ ~ In (Token.mk "9944b09199c62bcf9418ad846dd0e4bbdfc6ee4b" 1) (auth_tokens (fst out)).
Proof.
  intros out.
  assert (Hpost : PasswordChangeView_post change_request st_logged_in
                  = (fst out,
                     inr (Response.mk HTTP_200_OK true "Password changed successfully" []
                            None (Some "5f1d3c0a7b9e4d2c8a6f0b1e3d5c7a9b2e4f6a8c"))))
    by (vm_compute; reflexivity).
  destruct (C10_password_change_rotates_token change_request st_logged_in _ _
              Hpost eq_refl)
    as (user & Hu & Ha & _ & _ & Hold & _).
  injection Hu as <-. split.
  - exact Ha.
  - apply Hold.
    + now left.
    + reflexivity.
    + discriminate.
Defined.


(** * Further properties of the package *)

(** ** Source address of a request *)

Lemma before_comma_free s : free_of ","%char (before_comma s).
Proof.
  unfold free_of. induction s as [|c s IH]; simpl; [tauto|].
  destruct (Ascii.eqb_spec c ","%char) as [->|Hne]; simpl; [tauto|].
  intros [E|Hin]; [now apply Hne|now apply IH].
Qed.

Lemma before_comma_split s :
  s = before_comma s
  \/ exists rest, s = (before_comma s ++ String ","%char rest)%string.
Proof.
  induction s as [|c s IH]; simpl; [now left|].
  destruct (Ascii.eqb_spec c ","%char) as [->|Hne]; simpl.
  - right. now exists s.
  - destruct IH as [IH|(rest & IH)].
    + left. now rewrite <- IH.
    + right. exists rest. now rewrite <- IH.
Qed.

(** X1: when the forwarded-for header is present and not empty, the client
    address is its part before the first comma: it contains no comma and the
    header is that part alone or that part, a comma and a remainder; the
    direct connection address is not consulted.  When the header is absent
    or empty, the client address is the direct connection address (none if
    the server did not set it). *)
Theorem client_ip_is_first_forwarded_address :
  forall request,
    (forall header,
        dict_get "HTTP_X_FORWARDED_FOR" (Request.META request) = Some header ->
        header <> "" ->
        _get_client_ip request = Some (before_comma header)
        /\ free_of ","%char (before_comma header)
        /\ (header = before_comma header
            \/ exists rest,
                 header = (before_comma header ++ String ","%char rest)%string))
    /\ (dict_get "HTTP_X_FORWARDED_FOR" (Request.META request) = None
        \/ dict_get "HTTP_X_FORWARDED_FOR" (Request.META request) = Some "" ->
        _get_client_ip request = dict_get "REMOTE_ADDR" (Request.META request)).
Proof.
  intros request. unfold _get_client_ip, truthy. split.
  - intros header Hh Hne. rewrite Hh. apply String.eqb_neq in Hne. rewrite Hne. simpl.
    split; [reflexivity|]. split; [apply before_comma_free|apply before_comma_split].
  - intros [-> | ->]; reflexivity.
Qed.

(** ** Validity of a reset token over time *)

(** X2: a token row that is not valid at some time is not valid at any
    later time, a row that is valid at some time was valid at every earlier
    time, and a row marked used is valid at no time. *)
Theorem token_validity_only_decays :
  forall (r : PasswordResetToken.t) (earlier later : datetime),
    (earlier <= later)%Z ->
    (PasswordResetToken.is_valid earlier r = false ->
     PasswordResetToken.is_valid later r = false)
    /\ (PasswordResetToken.is_valid later r = true ->
        PasswordResetToken.is_valid earlier r = true)
    /\ PasswordResetToken.is_valid later (PasswordResetToken.mark_used r) = false.
Proof.
  intros r earlier later Hle. split; [|split].
  - rewrite !is_valid_false. intros [Hu|He]; [now left|right; lia].
  - rewrite !is_valid_true. intros [Hu He]. split; [assumption|lia].
  - reflexivity.
Qed.

Lemma token_validity_only_decays_witness :
  PasswordResetToken.is_valid (timedelta_hours 25)
    (PasswordResetToken.mk 1 T1 false (timedelta_hours 24) 0%Z) = false.
Proof.
  refine (proj1 (token_validity_only_decays
                   (PasswordResetToken.mk 1 T1 false (timedelta_hours 24) 0%Z)
                   (timedelta_hours 24 + 1)%Z (timedelta_hours 25) _) eq_refl).
  unfold timedelta_hours, one_second. lia.
Defined.

(** ** Rows selected through a unique column *)

Lemma unique_row {A K : Type} (key : A -> K) (p : A -> bool) (r : A) (table : list A) :
  (forall x, p x = true <-> key x = key r) ->
  NoDup (map key table) -> In r table ->
  filter p table = [r].
Proof.
  intros Hp. induction table as [|a table IH]; simpl; intros Hnd Hin; [contradiction|].
  apply NoDup_cons_iff in Hnd as [Hfresh Hnd].
  destruct Hin as [->|Hin].
  - rewrite (proj2 (Hp r) eq_refl). f_equal. apply filter_nil_iff.
    intros x Hx. destruct (p x) eqn:E; [|reflexivity].
    apply Hp in E. elim Hfresh. rewrite <- E. now apply in_map.
  - destruct (p a) eqn:E.
    + apply Hp in E. elim Hfresh. rewrite E. now apply in_map.
    + now apply IH.
Qed.

Lemma unique_column_rows {A K : Type} (key : A -> K) (k : K) (p : A -> bool)
    (table : list A) :
  (forall x, p x = true <-> key x = k) ->
  NoDup (map key table) ->
  filter p table = [] \/ exists r, filter p table = [r] /\ In r table /\ key r = k.
Proof.
  intros Hp Hnd. destruct (filter p table) as [|r rest] eqn:E; [now left|].
  right. exists r.
  assert (Hin : In r (filter p table)) by (rewrite E; now left).
  apply filter_In in Hin as [Hin Hr]. apply Hp in Hr.
  rewrite <- E. split; [|now split].
  apply unique_row with (key := key); try assumption.
  intros x. rewrite Hp. now rewrite Hr.
Qed.

Lemma by_profile_user_true uid p : by_profile_user uid p = true <-> UserProfile.user p = uid.
Proof. unfold by_profile_user. apply Nat.eqb_eq. Qed.



Lemma by_key_true k t : by_key k t = true <-> Token.key t = k.
Proof. unfold by_key. apply String.eqb_eq. Qed.

(** ** The profile of a user *)

(** Reading [user.profile] and creating the profile when there is none, on
    a table with at most one profile per user. *)
Lemma profile_get_or_create uid s :
  profiles_unique s ->
  (exists p, filter (by_profile_user uid) (profiles s) = [p]
             /\ objects_get (by_profile_user uid) (profiles s) = inr p)
  \/ (filter (by_profile_user uid) (profiles s) = []
      /\ objects_get (by_profile_user uid) (profiles s) = inl DoesNotExist
      /\ UserProfile_create uid s
         = (set_profiles (profiles s ++ [UserProfile.mk uid]) s, inr tt)).
Proof.
  intros Hu.
  destruct (unique_column_rows UserProfile.user uid (by_profile_user uid) (profiles s)
              (by_profile_user_true uid) Hu) as [Hnone|(p & Hp & _)].
  - right. split; [assumption|]. split; [now apply objects_get_missing|].
    unfold UserProfile_create, bind, get_state.
    now rewrite (proj2 (objects_exists_false _ _) Hnone).
  - left. exists p. split; [assumption|now apply objects_get_single].
Qed.

Lemma profiles_unique_after_create uid s :
  profiles_unique s ->
  filter (by_profile_user uid) (profiles s) = [] ->
  profiles_unique (set_profiles (profiles s ++ [UserProfile.mk uid]) s)
  /\ filter (by_profile_user uid) (profiles s ++ [UserProfile.mk uid])
     = [UserProfile.mk uid].
Proof.
  unfold profiles_unique. intros Hu Hnone. cbn [profiles set_profiles]. split.
  - rewrite map_app. apply NoDup_app; [assumption|constructor; [intros []|constructor]|].
    intros k Hin [<-|[]]. apply in_map_iff in Hin as (p & Hk & Hin).
    apply (proj1 (filter_nil_iff _ _) Hnone) in Hin.
    apply by_profile_user_true in Hk. cbn in Hk. congruence.
  - rewrite filter_app, Hnone. cbn [filter app].
    replace (by_profile_user uid (UserProfile.mk uid)) with true; [reflexivity|].
    symmetry. now apply by_profile_user_true.
Qed.

(** What the two receivers do to a store with at most one profile per
    user. *)
Lemma post_save_User_run instance created s :
  profiles_unique s ->
  exists s',
    post_save_User instance created s = (s', inr tt)
    /\ profiles s'
       = (if objects_exists (by_profile_user (User.id instance)) (profiles s)
          then profiles s
          else profiles s ++ [UserProfile.mk (User.id instance)])
    /\ users s' = users s
    /\ auth_tokens s' = auth_tokens s
    /\ password_reset_tokens s' = password_reset_tokens s
    /\ sessions s' = sessions s.
Proof.
  intros Hu.
  pose proof (post_save_User_total instance created s) as Htot.
  pose proof (fun X (f : State -> X) Hp Hl =>
                post_save_User_keeps f instance created Hp Hl s) as Hkeep.
  destruct (post_save_User instance created s) as [s' r] eqn:Erun.
  simpl in Htot, Hkeep. subst r. exists s'. split; [reflexivity|].
  split; [|repeat split; apply Hkeep; reflexivity].
  replace s' with (fst (post_save_User instance created s)) by now rewrite Erun.
  clear Erun Hkeep s'.
  unfold post_save_User, create_user_profile, save_user_profile.
  destruct (profile_get_or_create (User.id instance) s Hu)
    as [(p & Hrow & Hget)|(Hnone & Hget & Hcreate)].
  - assert (Hex : objects_exists (by_profile_user (User.id instance)) (profiles s) = true).
    { destruct (objects_exists _ _) eqn:E; [reflexivity|].
      apply objects_exists_false in E. congruence. }
    rewrite Hex. destruct created.
    + assert (Hcreate : UserProfile_create (User.id instance) s = (s, inl IntegrityError)).
      { unfold UserProfile_create, bind, get_state. now rewrite Hex. }
      unfold bind, try_except, get_state. cbv beta iota. rewrite Hcreate.
      unfold logger_error, modify. cbv beta iota.
      cbn [profiles set_log]. rewrite Hget. reflexivity.
    + unfold bind, ret, get_state. cbv beta iota. rewrite Hget. reflexivity.
  - rewrite (proj2 (objects_exists_false _ _) Hnone). destruct created.
    + unfold bind, try_except. rewrite Hcreate. unfold get_state. cbv beta iota.
      cbn [profiles set_profiles].
      destruct (profiles_unique_after_create _ _ Hu Hnone) as [_ Hone].
      rewrite (objects_get_single _ _ _ Hone). reflexivity.
    + unfold bind, ret, get_state, try_except. cbv beta iota.
      rewrite Hget, Hcreate. reflexivity.
Qed.

Lemma post_save_User_profiles instance created s :
  profiles_unique s ->
  let out := post_save_User instance created s in
  (exists added, profiles (fst out) = profiles s ++ added)
  /\ filter (by_profile_user (User.id instance)) (profiles (fst out))
     = [UserProfile.mk (User.id instance)]
  /\ profiles_unique (fst out).
Proof.
  intros Hu out. subst out.
  destruct (post_save_User_run instance created s Hu) as (s' & -> & Hp & _).
  cbn [fst]. unfold profiles_unique. rewrite Hp.
  destruct (profile_get_or_create (User.id instance) s Hu)
    as [(p & Hrow & _)|(Hnone & _ & _)].
  - assert (Hex : objects_exists (by_profile_user (User.id instance)) (profiles s) = true).
    { destruct (objects_exists _ _) eqn:E; [reflexivity|].
      apply objects_exists_false in E. congruence. }
    rewrite Hex. split; [exists []; now rewrite app_nil_r|]. split; [|assumption].
    rewrite Hrow. f_equal.
    assert (Hin : In p (filter (by_profile_user (User.id instance)) (profiles s)))
      by (rewrite Hrow; now left).
    apply filter_In in Hin as [_ Hin]. apply by_profile_user_true in Hin.
    destruct p as [u]. cbn in Hin. now subst u.
  - rewrite (proj2 (objects_exists_false _ _) Hnone).
    split; [now eexists|].
    destruct (profiles_unique_after_create _ _ Hu Hnone) as [Hu' Hone].
    split; assumption.
Qed.

(** X3: on a store with at most one profile per user, the receivers that
    run after a user is saved never raise, keep every existing profile,
    leave the user with exactly one profile (creating it when it is
    missing, for a new as for an existing user) and keep the one-profile
    constraint; accounts, bearer tokens, reset tokens and sessions are not
    touched. *)
Theorem post_save_leaves_exactly_one_profile :
  forall instance created s,
    profiles_unique s ->
    let out := post_save_User instance created s in
    snd out = inr tt
    /\ (exists added, profiles (fst out) = profiles s ++ added)
    /\ filter (by_profile_user (User.id instance)) (profiles (fst out))
         = [UserProfile.mk (User.id instance)]
    /\ profiles_unique (fst out)
    /\ users (fst out) = users s
    /\ auth_tokens (fst out) = auth_tokens s
    /\ password_reset_tokens (fst out) = password_reset_tokens s
    /\ sessions (fst out) = sessions s.
Proof.
  intros instance created s Hu out. subst out.
  destruct (post_save_User_profiles instance created s Hu) as (H1 & H2 & H3).
  destruct (post_save_User_run instance created s Hu)
    as (s' & Hrun & _ & Husers & Hat & Hrt & Hs).
  rewrite Hrun in *. cbn [fst snd] in *. repeat split; assumption.
Qed.

Lemma post_save_leaves_exactly_one_profile_witness :
  filter (by_profile_user 1) (profiles (fst (post_save_User alice true st0)))
  = [UserProfile.mk 1].
Proof.
  assert (Hu : profiles_unique st0) by constructor.
  destruct (post_save_leaves_exactly_one_profile alice true st0 Hu)
    as (_ & _ & Hone & _).
  exact Hone.
Defined.

Lemma user_info_run request user s :
  Request.user request = Some user ->
  profiles_unique s ->
  user_info request s
  = (if objects_exists (by_profile_user (User.id user)) (profiles s)
     then s
     else set_profiles (profiles s ++ [UserProfile.mk (User.id user)]) s,
     inr (Response.mk HTTP_200_OK true "" [] (Some (User.id user)) None)).
Proof.
  intros Hreq Hu. unfold user_info. rewrite Hreq. unfold bind, get_state.
  destruct (profile_get_or_create (User.id user) s Hu)
    as [(p & Hrow & Hget)|(Hnone & Hget & Hcreate)].
  - rewrite Hget. cbv beta iota.
    assert (Hex : objects_exists (by_profile_user (User.id user)) (profiles s) = true).
    { destruct (objects_exists _ _) eqn:E; [reflexivity|].
      apply objects_exists_false in E. congruence. }
    now rewrite Hex.
  - rewrite Hget, Hcreate, (proj2 (objects_exists_false _ _) Hnone). reflexivity.
Qed.

(** X4: for an authenticated user, on a store with at most one profile per
    user, [user_info] answers 200 and leaves the user with exactly one
    profile: it creates the profile when there is none and changes nothing
    when there is one, so a second call finds the store as the first left
    it and gives the same answer. *)
Theorem user_info_creates_the_profile_once :
  forall request user s,
    Request.user request = Some user ->
    profiles_unique s ->
    let answer := Response.mk HTTP_200_OK true "" [] (Some (User.id user)) None in
    let out := user_info request s in
    snd out = inr answer
    /\ filter (by_profile_user (User.id user)) (profiles (fst out))
         = [UserProfile.mk (User.id user)]
    /\ profiles_unique (fst out)
    /\ (objects_exists (by_profile_user (User.id user)) (profiles s) = true ->
        fst out = s)
    /\ user_info request (fst out) = (fst out, inr answer).
Proof.
  intros request user s Hreq Hu answer out. subst out answer.
  rewrite (user_info_run request user s Hreq Hu). cbn [fst snd].
  split; [reflexivity|].
  destruct (profile_get_or_create (User.id user) s Hu)
    as [(p & Hrow & _)|(Hnone & _ & _)].
  - assert (Hex : objects_exists (by_profile_user (User.id user)) (profiles s) = true).
    { destruct (objects_exists _ _) eqn:E; [reflexivity|].
      apply objects_exists_false in E. congruence. }
    rewrite Hex. split; [|split; [assumption|split; [reflexivity|]]].
    + rewrite Hrow. f_equal.
      assert (Hin : In p (filter (by_profile_user (User.id user)) (profiles s)))
        by (rewrite Hrow; now left).
      apply filter_In in Hin as [_ Hin]. apply by_profile_user_true in Hin.
      destruct p as [u]. cbn in Hin. now subst u.
    + rewrite (user_info_run request user s Hreq Hu). now rewrite Hex.
  - rewrite (proj2 (objects_exists_false _ _) Hnone).
    destruct (profiles_unique_after_create _ _ Hu Hnone) as [Hu' Hone].
    split; [exact Hone|]. split; [exact Hu'|]. split; [discriminate|].
    rewrite (user_info_run request user _ Hreq Hu'). cbn [profiles set_profiles].
    assert (Hex : objects_exists (by_profile_user (User.id user))
                    (profiles s ++ [UserProfile.mk (User.id user)]) = true).
    { destruct (objects_exists _ _) eqn:E; [reflexivity|].
      apply objects_exists_false in E. congruence. }
    now rewrite Hex.
Qed.

Lemma user_info_creates_the_profile_once_witness :
  let request := Request.mk [] [] (Some alice) 0%Z (fun i => i) "" true in
  profiles (fst (user_info request st0)) = [UserProfile.mk 1]
  /\ user_info request (fst (user_info request st0))
     = (fst (user_info request st0),
        inr (Response.mk HTTP_200_OK true "" [] (Some 1) None)).
Proof.
  intros request.
  assert (Hu : profiles_unique st0) by constructor.
  destruct (user_info_creates_the_profile_once request alice st0 eq_refl Hu)
    as (_ & Hone & _ & _ & Hagain).
  split; [exact Hone|exact Hagain].
Defined.

(** ** Logging in *)

Lemma login_run user s :
  exists s1,
    login user s = (s1, inr tt)
    /\ sessions s1 = sessions s ++ [User.id user]
    /\ auth_tokens s1 = auth_tokens s
    /\ users s1 = users s
    /\ password_reset_tokens s1 = password_reset_tokens s.
Proof.
  unfold login, bind, modify.
  set (s0 := set_sessions (sessions s ++ [User.id user]) s).
  pose proof (post_save_User_total user false s0) as Htot.
  pose proof (fun X (f : State -> X) Hp Hl =>
                post_save_User_keeps f user false Hp Hl s0) as Hkeep.
  destruct (post_save_User user false s0) as [s1 r]. simpl in Htot, Hkeep. subst r.
  exists s1. split; [reflexivity|].
  repeat split; rewrite Hkeep; reflexivity.
Qed.

(** What [get_or_create] returned and left in the table. *)
Lemma Token_get_or_create_inv request user s s' tc :
  Token_get_or_create request user s = (s', inr tc) ->
  objects_get (by_token_user (User.id user)) (auth_tokens s') = inr (fst tc)
  /\ ((objects_get (by_token_user (User.id user)) (auth_tokens s) = inr (fst tc)
       /\ snd tc = false /\ s' = s)
      \/ (filter (by_token_user (User.id user)) (auth_tokens s) = []
          /\ snd tc = true
          /\ fst tc = Token.mk (Request.token_key request) (User.id user)
          /\ s' = set_auth_tokens (auth_tokens s ++ [fst tc]) s)).
Proof.
  unfold Token_get_or_create, bind, get_state, objects_get.
  destruct (filter (by_token_user (User.id user)) (auth_tokens s)) as [|t [|t' rest]] eqn:E;
    cbv beta iota.
  - destruct (objects_exists _ _); [discriminate|].
    unfold modify, ret. intros [= <- <-]. cbn [fst snd auth_tokens set_auth_tokens]. split.
    + rewrite filter_app, E. cbn [filter app].
      replace (by_token_user _ _) with true; [reflexivity|].
      symmetry. now apply by_token_user_true.
    + right. repeat split.
  - unfold ret. intros [= <- <-]. cbn [fst snd]. rewrite E. split; [reflexivity|].
    left. repeat split.
  - discriminate.
Qed.

(** The success branch of the login view, statement by statement. *)
Lemma LoginView_post_valid_run `{Collaborators} cfg request s user :
  LoginSerializer_is_valid cfg s (Request.data request) = inr (Valid user) ->
  exists s1,
    login user s = (s1, inr tt)
    /\ LoginView_post cfg request s
       = match Token_get_or_create request user s1 with
         | (s2, inl e) => (s2, inl e)
         | (s2, inr tc) =>
             let s3 := set_log (log s2 ++ ["Failed to log login attempt"]) s2 in
             match objects_get (by_profile_user (User.id user)) (profiles s3) with
             | inr _ => (s3, inr (login_answer user (fst tc)))
             | inl DoesNotExist =>
                 match UserProfile_create (User.id user) s3 with
                 | (s4, inr _) => (s4, inr (login_answer user (fst tc)))
                 | (s4, inl e) => (s4, inl e)
                 end
             | inl e => (s3, inl e)
             end
         end.
Proof.
  intros Hv. destruct (login_run user s) as (s1 & Hlogin & _). exists s1.
  split; [assumption|].
  unfold LoginView_post. unfold bind at 1. unfold get_state at 1. cbv beta iota.
  unfold bind at 1, lift. rewrite Hv. cbv beta iota.
  unfold bind at 1. rewrite Hlogin. cbv beta iota.
  unfold bind at 1. destruct (Token_get_or_create request user s1) as [s2 [e|tc]];
    [reflexivity|]. cbv beta iota.
  unfold bind at 1. rewrite log_login_attempt_is_swallowed. cbv beta iota zeta.
  unfold bind at 1. unfold get_state at 1. cbv beta iota.
  unfold bind at 1.
  destruct (objects_get _ _) as [[]|p]; reflexivity.
Qed.


Lemma LoginView_post_invalid_run `{Collaborators} cfg request s :
  LoginView_post cfg request s
  = match LoginSerializer_is_valid cfg s (Request.data request) with
    | inl e => (s, inl e)
    | inr (Invalid errors) =>
        (set_log (log s ++ ["Failed to log login attempt"]) s,
         inr (Response.mk HTTP_400_BAD_REQUEST false "Login failed" errors None None))
    | inr (Valid user) => LoginView_post cfg request s
    end.
Proof.
  destruct (LoginSerializer_is_valid cfg s (Request.data request)) as [e|[user|errors]] eqn:Ev;
    try reflexivity.
  - unfold LoginView_post, bind at 1, get_state at 1. cbv beta iota.
    unfold bind at 1, lift. now rewrite Ev.
  - unfold LoginView_post, bind at 1, get_state at 1. cbv beta iota.
    unfold bind at 1, lift. rewrite Ev. cbv beta iota.
    unfold bind. rewrite log_login_attempt_is_swallowed. reflexivity.
Qed.

(** Everything a successful login did. *)
Lemma LoginView_post_success_inv `{Collaborators} cfg request s s' resp :
  LoginView_post cfg request s = (s', inr resp) ->
  Response.success resp = true ->
  exists user t,
    LoginSerializer_is_valid cfg s (Request.data request) = inr (Valid user)
    /\ resp = login_answer user t
    /\ objects_get (by_token_user (User.id user)) (auth_tokens s') = inr t
    /\ ((objects_get (by_token_user (User.id user)) (auth_tokens s) = inr t
         /\ auth_tokens s' = auth_tokens s)
        \/ (filter (by_token_user (User.id user)) (auth_tokens s) = []
            /\ t = Token.mk (Request.token_key request) (User.id user)
            /\ auth_tokens s' = auth_tokens s ++ [t]))
    /\ sessions s' = sessions s ++ [User.id user]
    /\ users s' = users s
    /\ password_reset_tokens s' = password_reset_tokens s.
Proof.
  intros Hpost Hok. rewrite LoginView_post_invalid_run in Hpost.
  destruct (LoginSerializer_is_valid cfg s (Request.data request)) as [e|[user|errors]] eqn:Ev;
    try discriminate.
  2:{ injection Hpost as _ <-. discriminate. }
  destruct (LoginView_post_valid_run cfg request s user Ev) as (s1 & Hlogin & Hrun).
  rewrite Hrun in Hpost. clear Hrun.
  destruct (login_run user s) as (s1' & Hlogin' & Hs1 & Ha1 & Hu1 & Hr1).
  assert (s1' = s1) by congruence. subst s1'.
  destruct (Token_get_or_create request user s1) as [s2 [e|tc]] eqn:Etok; [discriminate|].
  apply Token_get_or_create_inv in Etok as [Hrow Hcases].
  set (s3 := set_log (log s2 ++ ["Failed to log login attempt"]) s2) in *.
  assert (Hfinal : resp = login_answer user (fst tc)
                   /\ auth_tokens s' = auth_tokens s2
                   /\ sessions s' = sessions s2
                   /\ users s' = users s2
                   /\ password_reset_tokens s' = password_reset_tokens s2).
  { cbv zeta in Hpost.
    destruct (objects_get (by_profile_user (User.id user)) (profiles s3)) as [[]|p];
      try discriminate.
    - pose proof (fun X (f : State -> X) Hp =>
                    UserProfile_create_keeps f (User.id user) Hp s3) as Hkeep.
      destruct (UserProfile_create (User.id user) s3) as [s4 [e|[]]]; [discriminate|].
      simpl in Hkeep. injection Hpost as <- <-.
      repeat split; rewrite Hkeep; reflexivity.
    - injection Hpost as <- <-. repeat split. }
  destruct Hfinal as (-> & Ha & Hs & Hu & Hr).
  exists user, (fst tc). split; [reflexivity|]. split; [reflexivity|].
  rewrite Ha, Hs, Hu, Hr. split; [assumption|].
  split; [|destruct Hcases as [(_ & _ & ->)|(_ & _ & _ & ->)]; repeat split; assumption].
  destruct Hcases as [(Hget & _ & ->)|(Hnone & _ & Hkey & ->)].
  - left. rewrite <- Ha1. now split.
  - right. cbn [auth_tokens set_auth_tokens]. rewrite <- Ha1. repeat split; assumption.
Qed.



(** X6: a successful login does not rotate the bearer token.  When the
    account already has its row in the token table, the table is left as it
    was and the answer carries the stored key; only when it has none is a
    row created, with the freshly generated key, and appended. *)
Theorem login_reuses_the_stored_token `{Collaborators} :
  forall cfg request s s' resp,
    LoginView_post cfg request s = (s', inr resp) ->
    Response.success resp = true ->
    exists uid,
      Response.user resp = Some uid
      /\ (forall t, objects_get (by_token_user uid) (auth_tokens s) = inr t ->
                    auth_tokens s' = auth_tokens s
                    /\ Response.token resp = Some (Token.key t))
      /\ (filter (by_token_user uid) (auth_tokens s) = [] ->
          auth_tokens s' = auth_tokens s ++ [Token.mk (Request.token_key request) uid]
          /\ Response.token resp = Some (Request.token_key request)).
Proof.
  intros cfg request s s' resp Hpost Hok.
  destruct (LoginView_post_success_inv cfg request s s' resp Hpost Hok)
    as (user & t & _ & -> & _ & Hcases & _).
  exists (User.id user). split; [reflexivity|]. split.
  - intros t0 Ht0. destruct Hcases as [(Hget & Ha)|(Hnone & _ & _)].
    + split; [assumption|]. cbn. congruence.
    + apply objects_get_found in Ht0. congruence.
  - intros Hnone. destruct Hcases as [(Hget & _)|(_ & -> & Ha)].
    + apply objects_get_found in Hget. congruence.
    + split; [assumption|reflexivity].
Qed.

Lemma login_reuses_the_stored_token_witness :
  auth_tokens (fst (LoginView_post global_settings
                      (login_request "alice" "wonderland") st_logged_in))
  = auth_tokens st_logged_in.
Proof.
  assert (Hpost : LoginView_post global_settings (login_request "alice" "wonderland")
                    st_logged_in
                  = (fst (LoginView_post global_settings
                            (login_request "alice" "wonderland") st_logged_in),
                     inr (login_answer alice
                            (Token.mk "9944b09199c62bcf9418ad846dd0e4bbdfc6ee4b" 1))))
    by (vm_compute; reflexivity).
  destruct (login_reuses_the_stored_token global_settings _ st_logged_in _ _ Hpost eq_refl)
    as (uid & Hu & Hkeep & _).
  injection Hu as <-.
  exact (proj1 (Hkeep (Token.mk "9944b09199c62bcf9418ad846dd0e4bbdfc6ee4b" 1) eq_refl)).
Defined.

(** X7: a login that is refused (answered without success) writes nothing
    but one line of the error log: accounts, profiles, bearer tokens,
    sessions, reset tokens, mails and the audit table are as before, and
    the answer is the 400 response. *)
Theorem refused_login_changes_only_the_log `{Collaborators} :
  forall cfg request s s' resp,
    LoginView_post cfg request s = (s', inr resp) ->
    Response.success resp = false ->
    s' = set_log (log s ++ ["Failed to log login attempt"]) s
    /\ Response.status resp = HTTP_400_BAD_REQUEST
    /\ Response.token resp = None.
Proof.
  intros cfg request s s' resp Hpost Hko. rewrite LoginView_post_invalid_run in Hpost.
  destruct (LoginSerializer_is_valid cfg s (Request.data request)) as [e|[user|errors]] eqn:Ev;
    try discriminate.
  - destruct (LoginView_post_valid_run cfg request s user Ev) as (s1 & _ & Hrun).
    rewrite Hrun in Hpost.
    destruct (Token_get_or_create request user s1) as [s2 [e|tc]]; [discriminate|].
    cbv zeta in Hpost.
    destruct (objects_get _ _) as [[]|p]; try discriminate.
    + destruct (UserProfile_create _ _) as [s4 [e|[]]]; [discriminate|].
      injection Hpost as _ <-. discriminate.
    + injection Hpost as _ <-. discriminate.
  - injection Hpost as <- <-. repeat split.
Qed.

Lemma refused_login_changes_only_the_log_witness :
  fst (LoginView_post global_settings (login_request "alice" "rabbit") st0)
  = set_log (log st0 ++ ["Failed to log login attempt"]) st0.
Proof.
  assert (Hpost : LoginView_post global_settings (login_request "alice" "rabbit") st0
                  = (fst (LoginView_post global_settings
                            (login_request "alice" "rabbit") st0),
                     inr (Response.mk HTTP_400_BAD_REQUEST false "Login failed"
                            [("non_field_errors", msg_invalid_credentials)] None None)))
    by (vm_compute; reflexivity).
  exact (proj1 (refused_login_changes_only_the_log global_settings _ st0 _ _ Hpost eq_refl)).
Defined.






(** ** Logging out *)

Lemma LogoutView_post_run session_bound request user s :
  Request.user request = Some user ->
  LogoutView_post session_bound request s
  = let s1 := match objects_get (by_token_user (User.id user)) (auth_tokens s) with
              | inr auth_token =>
                  set_auth_tokens
                    (objects_delete (by_key (Token.key auth_token)) (auth_tokens s)) s
              | inl _ => s
              end in
    (if session_bound
     then set_sessions (remove_one (User.id user) (sessions s1)) s1
     else s1,
     inr (Response.mk HTTP_200_OK true "Logout successful" [] None None)).
Proof.
  intros Hreq. unfold LogoutView_post. rewrite Hreq.
  unfold bind at 1. unfold try_except, bind at 1, get_state. cbv beta iota.
  unfold bind at 1, lift.
  destruct (objects_get _ _) as [e|auth_token]; cbv beta iota zeta;
    unfold bind, logout, modify, ret; destruct session_bound; reflexivity.
Qed.

(** X9: for an authenticated user, on a token table that meets its
    uniqueness constraints, the logout view always answers 200, whether or
    not the user has a bearer token; afterwards the user has no row in the
    token table, the rows of the other users are all still there, and no
    account, profile or reset token is touched. *)
Theorem logout_revokes_the_bearer_token :
  forall session_bound request user s,
    Request.user request = Some user ->
    auth_tokens_unique s ->
    let out := LogoutView_post session_bound request s in
    snd out = inr (Response.mk HTTP_200_OK true "Logout successful" [] None None)
    /\ filter (by_token_user (User.id user)) (auth_tokens (fst out)) = []
    /\ (forall t, Token.user t <> User.id user ->
                  (In t (auth_tokens (fst out)) <-> In t (auth_tokens s)))
    /\ users (fst out) = users s
    /\ profiles (fst out) = profiles s
    /\ password_reset_tokens (fst out) = password_reset_tokens s.
Proof.
  intros session_bound request user s Hreq [Hkeys Husers] out. subst out.
  rewrite (LogoutView_post_run session_bound request user s Hreq). cbv zeta. cbn [fst snd].
  split; [reflexivity|].
  assert (Hframe : forall s1 : State,
             auth_tokens (if session_bound
                          then set_sessions (remove_one (User.id user) (sessions s1)) s1
                          else s1) = auth_tokens s1
             /\ users (if session_bound
                       then set_sessions (remove_one (User.id user) (sessions s1)) s1
                       else s1) = users s1
             /\ profiles (if session_bound
                          then set_sessions (remove_one (User.id user) (sessions s1)) s1
                          else s1) = profiles s1
             /\ password_reset_tokens
                  (if session_bound
                   then set_sessions (remove_one (User.id user) (sessions s1)) s1
                   else s1) = password_reset_tokens s1)
    by (intros s1; destruct session_bound; repeat split).
  destruct (unique_column_rows Token.user (User.id user) (by_token_user (User.id user))
              (auth_tokens s) (by_token_user_true _) Husers) as [Hnone|(t & Ht & Hin & Hown)].
  - rewrite (proj2 (objects_get_missing _ _) Hnone).
    destruct (Hframe s) as (-> & -> & -> & ->).
    split; [assumption|]. split; [tauto|]. repeat split.
  - rewrite (objects_get_single _ _ _ Ht).
    destruct (Hframe (set_auth_tokens
                        (objects_delete (by_key (Token.key t)) (auth_tokens s)) s))
      as (-> & -> & -> & ->).
    cbn [auth_tokens users profiles password_reset_tokens set_auth_tokens].
    assert (Hkey : filter (by_key (Token.key t)) (auth_tokens s) = [t]).
    { apply unique_row with (key := Token.key); try assumption.
      intros x. apply by_key_true. }
    split; [|split; [|repeat split]].
    + rewrite filter_delete_comm, Ht. unfold objects_delete. cbn [filter].
      now rewrite (proj2 (by_key_true _ t) eq_refl).
    + intros t' Hother. unfold objects_delete. rewrite filter_In. split; [tauto|].
      intros Hin'. split; [assumption|].
      destruct (by_key (Token.key t) t') eqn:E; [|reflexivity].
      assert (Hin2 : In t' (filter (by_key (Token.key t)) (auth_tokens s)))
        by (apply filter_In; now split).
      rewrite Hkey in Hin2. destruct Hin2 as [<-|[]]. contradiction.
Qed.

Lemma logout_revokes_the_bearer_token_witness :
  filter (by_token_user 1)
    (auth_tokens (fst (LogoutView_post true
                         (Request.mk [] [] (Some alice) 0%Z (fun i => i) "" true)
                         st_logged_in)))
  = [].
Proof.
  assert (Hu : auth_tokens_unique st_logged_in).
  { split; cbn; repeat constructor; cbn; intuition discriminate. }
  destruct (logout_revokes_the_bearer_token true
              (Request.mk [] [] (Some alice) 0%Z (fun i => i) "" true)
              alice st_logged_in eq_refl Hu) as (_ & Hnone & _).
  exact Hnone.
Defined.

(** ** Changing the password: what is checked *)






(** ** Logging in after the password was replaced *)





(** ** Resetting a password: what is left alone, and logging in afterwards *)

Lemma PasswordResetToken_save_keeps {X} (f : State -> X) r :
  (forall l s, f (set_password_reset_tokens l s) = f s) ->
  keeps f (PasswordResetToken_save r).
Proof. intros Ht. apply keeps_modify. intros s. apply Ht. Qed.

Lemma User_save_keeps {X} (f : State -> X) instance :
  (forall l s, f (set_users l s) = f s) ->
  (forall l s, f (set_profiles l s) = f s) ->
  (forall l s, f (set_log l s) = f s) ->
  keeps f (User_save instance).
Proof.
  intros Hu Hp Hl. unfold User_save. apply keeps_bind.
  - apply keeps_modify. intros s. apply Hu.
  - intros _. now apply post_save_User_keeps.
Qed.

Lemma PasswordResetConfirmView_post_keeps `{Collaborators} {X} (f : State -> X) request :
  (forall l s, f (set_users l s) = f s) ->
  (forall l s, f (set_profiles l s) = f s) ->
  (forall l s, f (set_log l s) = f s) ->
  (forall l s, f (set_password_reset_tokens l s) = f s) ->
  keeps f (PasswordResetConfirmView_post request).
Proof.
  intros Hu Hp Hl Ht. unfold PasswordResetConfirmView_post.
  apply keeps_bind; [keeps_step|intros s0].
  apply keeps_bind; [keeps_step|intros v].
  destruct v as [[token new_password]|errors]; [|keeps_step].
  apply keeps_bind; [keeps_step|intros token_obj].
  apply keeps_bind; [keeps_step|intros user].
  apply keeps_bind; [|intros; keeps_step].
  unfold confirm_writes, run_all.
  apply keeps_bind; [now apply User_save_keeps|intros _].
  apply keeps_bind; [now apply PasswordResetToken_save_keeps|intros _].
  keeps_step.
Qed.

(** X13: confirming a password reset, successful or not, never touches the
    bearer tokens or the sessions: every bearer token and session that
    existed before the reset exists after it (where a password change
    deletes the user's bearer token).  The audit table and the mails are
    left alone as well. *)
Theorem password_reset_keeps_bearer_tokens_and_sessions `{Collaborators} :
  forall request s,
    auth_tokens (fst (PasswordResetConfirmView_post request s)) = auth_tokens s
    /\ sessions (fst (PasswordResetConfirmView_post request s)) = sessions s
    /\ login_attempts (fst (PasswordResetConfirmView_post request s)) = login_attempts s
    /\ outbox (fst (PasswordResetConfirmView_post request s)) = outbox s.
Proof.
  intros request s.
  repeat split; apply PasswordResetConfirmView_post_keeps; reflexivity.
Qed.




(** ** Requesting a reset: the mail and the token *)



(** X16: the outcome of a reset request does not depend on the mail
    backend: with the backend up or down the view gives the same answer (or
    raises the same exception) and leaves the same token table; a refused
    mail is never reported to the caller.  Whatever the request, the view
    changes no account, no profile, no bearer token, no session and no
    audit row. *)
Theorem reset_request_ignores_mail_failure `{Collaborators} :
  forall cfg request up s,
    snd (PasswordResetRequestView_post cfg (with_mail_ok up request) s)
      = snd (PasswordResetRequestView_post cfg request s)
    /\ password_reset_tokens
         (fst (PasswordResetRequestView_post cfg (with_mail_ok up request) s))
       = password_reset_tokens (fst (PasswordResetRequestView_post cfg request s))
    /\ users (fst (PasswordResetRequestView_post cfg request s)) = users s
    /\ profiles (fst (PasswordResetRequestView_post cfg request s)) = profiles s
    /\ auth_tokens (fst (PasswordResetRequestView_post cfg request s)) = auth_tokens s
    /\ sessions (fst (PasswordResetRequestView_post cfg request s)) = sessions s
    /\ login_attempts (fst (PasswordResetRequestView_post cfg request s))
       = login_attempts s.
Proof.
  intros cfg request up s. rewrite !PasswordResetRequestView_post_eq.
  change (Request.data (with_mail_ok up request)) with (Request.data request).
  destruct (PasswordResetRequestSerializer_is_valid _ _) as [e|[email|errors]];
    try (repeat split; reflexivity).
  destruct (objects_get _ _) as [e|user]; try (repeat split; reflexivity).
  cbv zeta.
  change (issued_row (User.id user) (with_mail_ok up request))
    with (issued_row (User.id user) request).
  destruct (objects_exists _ _); try (repeat split; reflexivity).
  unfold after_mail. cbn [fst snd Request.mail_ok with_mail_ok].
  destruct up, (Request.mail_ok request); repeat split; reflexivity.
Qed.

(** X17: in every store the token lifecycle reaches from a store without
    reset tokens, no two rows of the token table carry the same token
    string: the uniqueness models.py declares is kept by every reset
    request and confirmation, also by those that fail. *)
Theorem lifecycle_keeps_token_strings_unique `{Collaborators} :
  forall cfg s, reachable cfg s -> tokens_unique s.
Proof. intros cfg s Hreach. now apply (reachable_tokens_unique cfg). Qed.

Lemma lifecycle_keeps_token_strings_unique_witness : tokens_unique st1.
Proof.
  apply (lifecycle_keeps_token_strings_unique global_settings).
  exists st0, [Issue (reset_request "alice@example.org" 0%Z (fun i => i))].
  split; reflexivity.
Defined.

(** ** Confirming a reset: what a refused confirmation reports *)





(** ** Messages the login serializer never sends *)

Lemma authenticate_raises_only_multiple `{Collaborators} cfg s username password e :
  authenticate cfg s username password = inl e -> e = MultipleObjectsReturned.
Proof.
  unfold authenticate, objects_get.
  destruct (filter _ _) as [|u [|u' rest]]; try discriminate.
  - destruct (_ && _); discriminate.
  - now intros [= <-].
Qed.

(** X20: whatever is submitted, the errors of the login serializer never
    contain the message asking to include username and password: a missing
    or blank entry is refused by its field before [validate] runs, and
    [validate] then always receives two non-empty strings. *)
Theorem login_never_asks_to_include_credentials `{Collaborators} :
  forall cfg s data errors,
    LoginSerializer_is_valid cfg s data = inr (Invalid errors) ->
    forall field, ~ In (field, msg_must_include) errors.
Proof.
  intros cfg s data errors Hv field Hin. unfold LoginSerializer_is_valid in Hv.
  assert (Hfield : forall name raw n,
             ~ In (field, msg_must_include) (field_errors name (CharField n raw))).
  { intros name raw n. unfold CharField.
    destruct raw as [v|]; [|intros [E|[]]; discriminate].
    destruct (v =? ""); [intros [E|[]]; discriminate|].
    destruct (n <? String.length v)%nat; [|intros []].
    intros [E|[]]. cbn in E. discriminate. }
  pose proof (Hfield "username" (dict_get "username" data) 150) as Hfu.
  pose proof (Hfield "password" (dict_get "password" data) 128) as Hfp.
  destruct (CharField 150 (dict_get "username" data)) as [mu|u] eqn:Eu.
  - injection Hv as <-. destruct Hin as [E|Hin].
    + apply Hfu. now left.
    + now apply Hfp.
  - destruct (CharField 128 (dict_get "password" data)) as [mp|p] eqn:Ep.
    + injection Hv as <-. now apply Hfp.
    + assert (Hu : u <> "").
      { unfold CharField in Eu. destruct (dict_get "username" data) as [v|]; [|discriminate].
        destruct (String.eqb_spec v ""); [discriminate|].
        destruct (150 <? String.length v)%nat; [discriminate|]. congruence. }
      assert (Hp : p <> "").
      { unfold CharField in Ep. destruct (dict_get "password" data) as [v|]; [|discriminate].
        destruct (String.eqb_spec v ""); [discriminate|].
        destruct (128 <? String.length v)%nat; [discriminate|]. congruence. }
      unfold run_validate, LoginSerializer_validate, truthy in Hv.
      apply String.eqb_neq in Hu, Hp. rewrite Hu, Hp in Hv. cbn [negb andb] in Hv.
      destruct (authenticate cfg s u p) as [e|[user|]] eqn:Ea.
      * apply authenticate_raises_only_multiple in Ea. subst e. discriminate.
      * destruct (negb (User.is_active user)); [|discriminate].
        injection Hv as <-. destruct Hin as [E|[]]. discriminate.
      * injection Hv as <-. destruct Hin as [E|[]]. discriminate.
Qed.

Lemma login_never_asks_to_include_credentials_witness :
  ~ In ("non_field_errors", msg_must_include)
      [("username", "This field is required.");
       ("password", "This field may not be blank.")].
Proof.
  exact (login_never_asks_to_include_credentials global_settings st0 [("password", "")]
           _ eq_refl "non_field_errors").
Defined.

(** ** Logging in again after a logout *)

Lemma logout_leaves_no_token session_bound request user s :
  Request.user request = Some user ->
  auth_tokens_unique s ->
  filter (by_token_user (User.id user))
    (auth_tokens (fst (LogoutView_post session_bound request s))) = []
  /\ (forall t, In t (auth_tokens (fst (LogoutView_post session_bound request s))) ->
                In t (auth_tokens s)).
Proof.
  intros Hreq [Hkeys Husers].
  rewrite (LogoutView_post_run session_bound request user s Hreq). cbv zeta. cbn [fst].
  assert (Hframe : forall s1 : State,
             auth_tokens (if session_bound
                          then set_sessions (remove_one (User.id user) (sessions s1)) s1
                          else s1) = auth_tokens s1)
    by (intros s1; now destruct session_bound).
  rewrite Hframe.
  destruct (unique_column_rows Token.user (User.id user) (by_token_user (User.id user))
              (auth_tokens s) (by_token_user_true _) Husers) as [Hnone|(t & Ht & Hin & Hown)].
  - rewrite (proj2 (objects_get_missing _ _) Hnone). now split.
  - rewrite (objects_get_single _ _ _ Ht). cbn [auth_tokens set_auth_tokens]. split.
    + rewrite filter_delete_comm, Ht. unfold objects_delete. cbn [filter].
      now rewrite (proj2 (by_key_true _ t) eq_refl).
    + intros t' Hin'. unfold objects_delete in Hin'. now apply filter_In in Hin'.
Qed.

(** X21: logging out and in again rotates the bearer token.  When a user
    logs out (token table meeting its uniqueness constraints) and a later
    login for the same account succeeds, the answer carries the key
    generated during that login, and a row the account had before the
    logout, unless its key is that same string, is in the table no more. *)
Theorem login_after_logout_issues_a_new_token `{Collaborators} :
  forall cfg session_bound out_request in_request user s s' resp,
    Request.user out_request = Some user ->
    auth_tokens_unique s ->
    LoginView_post cfg in_request (fst (LogoutView_post session_bound out_request s))
      = (s', inr resp) ->
    Response.success resp = true ->
    Response.user resp = Some (User.id user) ->
    Response.token resp = Some (Request.token_key in_request)
    /\ (forall t, In t (auth_tokens s) ->
                  Token.user t = User.id user ->
                  Token.key t <> Request.token_key in_request ->
                  ~ In t (auth_tokens s')).
Proof.
  intros cfg session_bound out_request in_request user s s' resp Hreq Huniq Hpost Hok Huser.
  destruct (logout_leaves_no_token session_bound out_request user s Hreq Huniq)
    as [Hnone Hsub].
  destruct (LoginView_post_success_inv cfg in_request _ s' resp Hpost Hok)
    as (user' & t & _ & -> & _ & Hcases & _).
  cbn in Huser. injection Huser as Hid. rewrite Hid in Hcases.
  destruct Hcases as [(Hget & _)|(_ & -> & Ha)].
  - apply objects_get_found in Hget. congruence.
  - split; [reflexivity|].
    intros t0 Hin Hown Hkey Hin'. rewrite Ha in Hin'.
    apply in_app_or in Hin' as [Hin'|[<-|[]]].
    + assert (Hf : In t0 (filter (by_token_user (User.id user))
                            (auth_tokens (fst (LogoutView_post session_bound
                                                 out_request s)))))
        by (apply filter_In; split; [assumption|now apply by_token_user_true]).
      rewrite Hnone in Hf. destruct Hf.
    + now apply Hkey.
Qed.

Lemma login_after_logout_issues_a_new_token_witness :
  let out_request := Request.mk [] [] (Some alice) 0%Z (fun i => i) "" true in
  let in_request :=
    Request.mk [("username", "alice"); ("password", "wonderland")] [] None one_second
      (fun i => i) "77aa0c1d2e3f4a5b6c7d8e9f0a1b2c3d4e5f6a7b" true in
  ~ In (Token.mk "9944b09199c62bcf9418ad846dd0e4bbdfc6ee4b" 1)
       (auth_tokens (fst (LoginView_post global_settings in_request
                            (fst (LogoutView_post true out_request st_logged_in))))).
Proof.
  intros out_request in_request.
  assert (Hu : auth_tokens_unique st_logged_in).
  { split; cbn; repeat constructor; cbn; intuition discriminate. }
  assert (Hpost : LoginView_post global_settings in_request
                    (fst (LogoutView_post true out_request st_logged_in))
                  = (fst (LoginView_post global_settings in_request
                            (fst (LogoutView_post true out_request st_logged_in))),
                     inr (login_answer alice
                            (Token.mk "77aa0c1d2e3f4a5b6c7d8e9f0a1b2c3d4e5f6a7b" 1))))
    by (vm_compute; reflexivity).
  destruct (login_after_logout_issues_a_new_token global_settings true out_request
              in_request alice st_logged_in _ _ eq_refl Hu Hpost eq_refl eq_refl)
    as [_ Hold].
  apply Hold; [now left|reflexivity|discriminate].
Defined.

(** ** Validation of a registration *)

(** X22: [RegisterSerializer.validate] lets a registration through only
    when the two password entries agree and no stored account has the
    submitted username or the submitted email, and then returns the entries
    unchanged.  The checks are made in that order, so differing passwords
    are reported even when the username is taken, and a taken username
    before a taken email.  An entry that was not submitted matches no
    account, but an empty email does match an account whose email is
    empty: once such an account is stored, a registration with an empty
    email is refused with "Email already exists.". *)
Theorem registration_needs_unused_username_and_email :
  forall s attrs,
    (forall attrs',
        RegisterSerializer_validate s attrs = inr attrs' ->
        attrs' = attrs
        /\ option_string_eqb (RegisterAttrs.password attrs)
             (RegisterAttrs.password_confirm attrs) = true
        /\ (forall u name, In u (users s) -> RegisterAttrs.username attrs = Some name ->
                           User.username u <> name)
        /\ (forall u mail, In u (users s) -> RegisterAttrs.email attrs = Some mail ->
                           User.email u <> mail))
    /\ (option_string_eqb (RegisterAttrs.password attrs)
          (RegisterAttrs.password_confirm attrs) = false ->
        RegisterSerializer_validate s attrs
        = inl (ValidationError "Passwords do not match."))
    /\ (option_string_eqb (RegisterAttrs.password attrs)
          (RegisterAttrs.password_confirm attrs) = true ->
        forall u, In u (users s) ->
                  RegisterAttrs.username attrs = Some (User.username u) ->
                  RegisterSerializer_validate s attrs
                  = inl (ValidationError "Username already exists."))
    /\ (option_string_eqb (RegisterAttrs.password attrs)
          (RegisterAttrs.password_confirm attrs) = true ->
        stored_with User.username (RegisterAttrs.username attrs) (users s) = false ->
        forall u, In u (users s) ->
                  RegisterAttrs.email attrs = Some (User.email u) ->
                  RegisterSerializer_validate s attrs
                  = inl (ValidationError "Email already exists.")).
Proof.
  intros s attrs.
  assert (Hstored : forall column value u,
             In u (users s) -> value = Some (column u) ->
             stored_with column value (users s) = true).
  { intros column value u Hin ->. unfold stored_with, objects_exists.
    apply existsb_exists. exists u. split; [assumption|apply String.eqb_refl]. }
  assert (Hfree : forall column value,
             stored_with column value (users s) = false ->
             forall u v, In u (users s) -> value = Some v -> column u <> v).
  { intros column value Hno u v Hin -> E.
    rewrite (Hstored column (Some v) u Hin) in Hno; [discriminate|now rewrite E]. }
  unfold RegisterSerializer_validate. split; [|split; [|split]].
  - intros attrs'.
    destruct (option_string_eqb _ _); cbn [negb]; [|discriminate].
    destruct (stored_with User.username _ _) eqn:Eu; [discriminate|].
    destruct (stored_with User.email _ _) eqn:Ee; [discriminate|].
    intros [= <-]. split; [reflexivity|]. split; [reflexivity|].
    split; [apply (Hfree _ _ Eu)|apply (Hfree _ _ Ee)].
  - intros ->. reflexivity.
  - intros -> u Hin Hname. cbn [negb].
    now rewrite (Hstored User.username _ u Hin Hname).
  - intros -> -> u Hin Hmail. cbn [negb].
    now rewrite (Hstored User.email _ u Hin Hmail).
Qed.
